(** * Instagram profile scraper: extraction core

    A shallow embedding of [instagram_scraper.py] (class
    [InstagramScraperPython]) and the properties of its extraction
    functions.

    The scraper is Python; the embedding keeps Python's dynamic values and
    its exceptions explicit:
    - a Python object coming out of the JSON decoder is a [Py.value];
    - a call that may raise returns a [Py.result], and [try]/[except] is
      [Py.try_except];
    - a [str] is a [string], read as a sequence of code points below 256;
    - a [float] is an IEEE 754 binary64 number, a [spec_float] of the
      standard library with [prec = 53] and [emax = 1024].

    The network and the HTML parser stay outside: a function of the scraper
    that fetches a page receives here what the fetch gave. *)

From Stdlib Require Import ZArith List String Ascii Bool Lia.
From Stdlib Require Import Floats.SpecFloat.
Import ListNotations.

Set Warnings "-register-all".

Local Open Scope string_scope.
Local Open Scope Z_scope.

(** ** The fragment of the Python runtime the scraper relies on *)

Module Py.

(** Exception classes that the modelled operations raise.  [JSONDecodeError]
    is a subclass of [ValueError]; the others are unrelated to one another,
    and all of them derive from [Exception]. *)
Inductive exn : Type :=
| TypeError
| KeyError
| IndexError
| AttributeError
| ValueError
| OverflowError
| JSONDecodeError
| RecursionError.

Inductive result (A : Type) : Type :=
| Ok (a : A)
| Raise (e : exn).

Arguments Ok {A} a.
Arguments Raise {A} e.

Definition bind {A B : Type} (c : result A) (k : A -> result B) : result B :=
  match c with
  | Ok a => k a
  | Raise e => Raise e
  end.

(** [try: c except <classes selected by handles>: h]. *)
Definition try_except {A : Type} (c : result A) (handles : exn -> bool)
  (h : exn -> result A) : result A :=
  match c with
  | Ok a => Ok a
  | Raise e => if handles e then h e else Raise e
  end.

(** [isinstance(e, ValueError)]. *)
Definition is_ValueError (e : exn) : bool :=
  match e with
  | ValueError | JSONDecodeError => true
  | _ => false
  end.

(** *** Characters and strings *)

Definition code (c : ascii) : Z := Z.of_N (N_of_ascii c).

Definition is_digit (c : ascii) : bool := (48 <=? code c) && (code c <=? 57).

Definition digit_val (c : ascii) : Z := code c - 48.

(** [Py_ISSPACE], the ASCII-only test of the C runtime. *)
Definition Py_ISSPACE (c : ascii) : bool :=
  (code c =? 32) || ((9 <=? code c) && (code c <=? 13)).

(** [str.isspace] on one code point below 256, also the class [\s] of [re]
    on a [str] pattern. *)
Definition isspace (c : ascii) : bool :=
  Py_ISSPACE c || ((28 <=? code c) && (code c <=? 31))
  || (code c =? 133) || (code c =? 160).

Definition lower (c : ascii) : ascii :=
  if (65 <=? code c) && (code c <=? 90)
  then ascii_of_N (N_of_ascii c + 32) else c.

Definition is_empty (s : string) : bool :=
  match s with
  | EmptyString => true
  | String _ _ => false
  end.

(** [s.startswith(p)]. *)
Fixpoint startswith (s p : string) {struct p} : bool :=
  match p with
  | EmptyString => true
  | String a p' =>
      match s with
      | EmptyString => false
      | String b s' => Ascii.eqb a b && startswith s' p'
      end
  end.

(** [drop n s] is [s[n:]]. *)
Fixpoint drop (n : nat) (s : string) : string :=
  match n with
  | O => s
  | S n' =>
      match s with
      | EmptyString => EmptyString
      | String _ s' => drop n' s'
      end
  end.

(** [s.endswith(p)]. *)
Definition endswith (s p : string) : bool :=
  (String.length p <=? String.length s)%nat
  && String.eqb (drop (String.length s - String.length p) s) p.

(** [s[:-1]]. *)
Fixpoint drop_last (s : string) : string :=
  match s with
  | EmptyString => EmptyString
  | String c EmptyString => EmptyString
  | String c s' => String c (drop_last s')
  end.

(** [p in s] for two strings: [p] occurs in [s]. *)
Fixpoint contains (s p : string) : bool :=
  startswith s p ||
  match s with
  | EmptyString => false
  | String _ s' => contains s' p
  end.

(** [s.replace(old, new)] for a non-empty [old]: the occurrences of [old] are
    replaced from left to right, without overlap.  [skip] counts the
    characters of an occurrence still to be passed over. *)
Fixpoint replace_from (old new : string) (skip : nat) (s : string) : string :=
  match s with
  | EmptyString => EmptyString
  | String c s' =>
      match skip with
      | S k => replace_from old new k s'
      | O =>
          if startswith s old
          then new ++ replace_from old new (String.length old - 1) s'
          else String c (replace_from old new O s')
      end
  end.

(** [s.replace(old, new)]; with an empty [old] Python puts [new] before each
    character and at the end. *)
Fixpoint replace_empty (new s : string) : string :=
  match s with
  | EmptyString => new
  | String c s' => new ++ String c (replace_empty new s')
  end.

Definition replace (old new s : string) : string :=
  if is_empty old then replace_empty new s else replace_from old new O s.

(** *** [float] *)

Definition prec : Z := 53.
Definition emax : Z := 1024.

(** The binary64 number nearest to [m * 10 ^ e10], ties to even, for a
    natural number [m]: the quotient of two integers, rounded once. *)
Definition float_of_decimal (neg : bool) (m e10 : Z) : spec_float :=
  if m =? 0 then S754_zero neg
  else
    let num := if 0 <=? e10 then m * 10 ^ e10 else m in
    let den := if 0 <=? e10 then 1 else 10 ^ (- e10) in
    let '(q, e, l) := SFdiv_core_binary prec emax num 0 den 0 in
    binary_round_aux prec emax neg q e l.

(** [float(n)] for a Python [int]; exact for the multipliers used here. *)
Definition float_of_int (n : Z) : spec_float :=
  binary_normalize prec emax n 0 false.

Definition float_mul (x y : spec_float) : spec_float := SFmul prec emax x y.

Definition read_sign (s : string) : bool * string :=
  match s with
  | String "-" t => (true, t)
  | String "+" t => (false, t)
  | _ => (false, s)
  end.

(** Reads a run of decimal digits: the value accumulated onto [acc], the
    number of digits added to [n], and the rest. *)
Fixpoint read_digits (acc n : Z) (s : string) : Z * Z * string :=
  match s with
  | String c t =>
      if is_digit c then read_digits (10 * acc + digit_val c) (n + 1) t
      else (acc, n, s)
  | EmptyString => (acc, n, s)
  end.

(** An exponent part [e], [E] with an optional sign and at least one digit;
    when it is malformed nothing is consumed. *)
Definition read_exponent (s : string) : Z * string :=
  match s with
  | String c t =>
      if Ascii.eqb (lower c) "e" then
        let '(eneg, t1) := read_sign t in
        let '(v, n, t2) := read_digits 0 0 t1 in
        if n =? 0 then (0, s) else ((if eneg then - v else v), t2)
      else (0, s)
  | EmptyString => (0, s)
  end.

(** [_Py_dg_strtod]: the longest prefix that is a decimal number, correctly
    rounded, and the rest; [None] when there is no digit. *)
Definition strtod (s : string) : option (spec_float * string) :=
  let '(neg, s1) := read_sign s in
  let '(m1, n1, s2) := read_digits 0 0 s1 in
  let '(m2, n2, s3) :=
    match s2 with
    | String "." t => read_digits m1 0 t
    | _ => (m1, 0, s2)
    end in
  if n1 + n2 =? 0 then None
  else
    let '(e, s4) := read_exponent s3 in
    Some (float_of_decimal neg m2 (e - n2), s4).

(** [case_insensitive_match]: [p] is lower case. *)
Fixpoint ci_prefix (s p : string) {struct p} : option string :=
  match p with
  | EmptyString => Some s
  | String a p' =>
      match s with
      | EmptyString => None
      | String b s' => if Ascii.eqb (lower b) a then ci_prefix s' p' else None
      end
  end.

(** [_Py_parse_inf_or_nan]. *)
Definition parse_inf_or_nan (s : string) : option (spec_float * string) :=
  let '(neg, s1) := read_sign s in
  match ci_prefix s1 "inf" with
  | Some s2 =>
      match ci_prefix s2 "inity" with
      | Some s3 => Some (S754_infinity neg, s3)
      | None => Some (S754_infinity neg, s2)
      end
  | None =>
      match ci_prefix s1 "nan" with
      | Some s2 => Some (S754_nan, s2)
      | None => None
      end
  end.

(** [_PyOS_ascii_strtod]. *)
Definition ascii_strtod (s : string) : option (spec_float * string) :=
  match strtod s with
  | Some r => Some r
  | None => parse_inf_or_nan s
  end.

(** [_PyUnicode_TransformDecimalAndSpaceToASCII] on code points below 256:
    an ASCII string is returned as it is; in another one a space above 126
    becomes [" "], and the string is cut with a ["?"] at the first other
    character above 126 (no decimal digit lives there). *)
Fixpoint transform_chars (s : string) : string :=
  match s with
  | EmptyString => EmptyString
  | String c t =>
      if code c <? 127 then String c (transform_chars t)
      else if isspace c then String " " (transform_chars t)
      else String "?" EmptyString
  end.

Fixpoint is_ascii (s : string) : bool :=
  match s with
  | EmptyString => true
  | String c t => (code c <? 128) && is_ascii t
  end.

Definition transform_decimal_and_space (s : string) : string :=
  if is_ascii s then s else transform_chars s.

(** [_Py_string_to_number_with_underscores]: an underscore is accepted
    between two digits only, and removed.  [prev] is the previous character,
    NUL at the start.  A string without underscore comes back unchanged. *)
Fixpoint strip_underscores (prev : ascii) (s : string) : option string :=
  match s with
  | EmptyString => if Ascii.eqb prev "_" then None else Some EmptyString
  | String c t =>
      if Ascii.eqb c "_" then
        if is_digit prev then strip_underscores c t else None
      else if Ascii.eqb prev "_" && negb (is_digit c) then None
      else option_map (String c) (strip_underscores c t)
  end.

Fixpoint lstrip (s : string) : string :=
  match s with
  | String c t => if Py_ISSPACE c then lstrip t else s
  | EmptyString => EmptyString
  end.

(** Trailing white space is removed down to one character at least. *)
Fixpoint rstrip1 (s : string) : string :=
  match s with
  | EmptyString => EmptyString
  | String c t =>
      match t with
      | EmptyString => s
      | String _ _ =>
          match rstrip1 t with
          | String d EmptyString =>
              if Py_ISSPACE d then String c EmptyString
              else String c (String d EmptyString)
          | r => String c r
          end
      end
  end.

(** [float_from_string_inner]. *)
Definition float_from_string_inner (s : string) : result spec_float :=
  let s1 := lstrip s in
  if is_empty s1 then Raise ValueError
  else
    match ascii_strtod (rstrip1 s1) with
    | Some (x, EmptyString) => Ok x
    | _ => Raise ValueError
    end.

(** [float(s)] for a [str]. *)
Definition float (s : string) : result spec_float :=
  match strip_underscores zero (transform_decimal_and_space s) with
  | Some s' => float_from_string_inner s'
  | None => Raise ValueError
  end.

(** [int(x)] for a [float]: truncation toward zero; [OverflowError] on an
    infinity, [ValueError] on a NaN. *)
Definition int_of_float (x : spec_float) : result Z :=
  match x with
  | S754_nan => Raise ValueError
  | S754_infinity _ => Raise OverflowError
  | S754_zero _ => Ok 0
  | S754_finite s m e => Ok (cond_Zopp s (Z.shiftl (Zpos m) e))
  end.

End Py.

Notation "x <- c ;; k" := (Py.bind c (fun x => k))
  (at level 61, c at next level, right associativity).

(** ** Python objects, as the JSON decoder builds them *)

Module Obj.
Import Py.

(** A [dict] is kept as its list of items; a key is looked up from the
    front, so that an item hidden by an earlier one with the same key is not
    part of the dictionary. *)
Inductive value : Type :=
| VNone
| VBool (b : bool)
| VInt (n : Z)
| VFloat (x : spec_float)
| VStr (s : string)
| VList (l : list value)
| VDict (d : list (string * value)).

Fixpoint lookup (k : string) (d : list (string * value)) : option value :=
  match d with
  | [] => None
  | (k', v) :: d' => if String.eqb k k' then Some v else lookup k d'
  end.

Definition is_dict (v : value) : bool :=
  match v with
  | VDict _ => true
  | _ => false
  end.

(** [bool(v)]. *)
Definition truthy (v : value) : bool :=
  match v with
  | VNone => false
  | VBool b => b
  | VInt n => negb (n =? 0)
  | VFloat (S754_zero _) => false
  | VFloat _ => true
  | VStr s => negb (is_empty s)
  | VList l => match l with [] => false | _ => true end
  | VDict d => match d with [] => false | _ => true end
  end.

(** [a or b]. *)
Definition or_else (a b : value) : value := if truthy a then a else b.

(** [k in v] for a string [k]: key of a [dict], element of a [list],
    substring of a [str]; the other objects are not containers. *)
Definition py_in (k : string) (v : value) : result bool :=
  match v with
  | VDict d => Ok (match lookup k d with Some _ => true | None => false end)
  | VList l =>
      Ok (existsb (fun x => match x with VStr s => String.eqb k s | _ => false end) l)
  | VStr s => Ok (contains s k)
  | VNone | VBool _ | VInt _ | VFloat _ => Raise TypeError
  end.

(** [v[k]] for a string [k]. *)
Definition getitem (v : value) (k : string) : result value :=
  match v with
  | VDict d => match lookup k d with Some x => Ok x | None => Raise KeyError end
  | _ => Raise TypeError
  end.

(** [v[0]].  The keys of a decoded [dict] are strings, none equals [0]. *)
Definition getitem0 (v : value) : result value :=
  match v with
  | VList l => match l with x :: _ => Ok x | [] => Raise IndexError end
  | VStr s =>
      match s with
      | String c _ => Ok (VStr (String c EmptyString))
      | EmptyString => Raise IndexError
      end
  | VDict _ => Raise KeyError
  | VNone | VBool _ | VInt _ | VFloat _ => Raise TypeError
  end.

(** [v.get(k, default)]: only a [dict] has the method. *)
Definition get (v : value) (k : string) (default : value) : result value :=
  match v with
  | VDict d => Ok (match lookup k d with Some x => x | None => default end)
  | _ => Raise AttributeError
  end.

Definition of_option_str (o : option string) : value :=
  match o with
  | Some s => VStr s
  | None => VNone
  end.

End Obj.

(** ** The fragment of [re] the scraper's patterns use *)

Module Re.
Import Py.

(** A pattern is a sequence of one-character classes, each under a
    quantifier; matching backtracks as [re] does, first alternative first. *)
Inductive quant : Type :=
| Once
| Optional   (* ?  *)
| Star       (* *  *)
| Plus       (* +  *)
| LazyPlus.  (* +? *)

Definition atom : Type := (ascii -> bool) * quant.

Section Backtracking.
Context {R : Type}.

Definition once (cls : ascii -> bool) (k : string -> option R) (s : string)
  : option R :=
  match s with
  | String c s' => if cls c then k s' else None
  | EmptyString => None
  end.

Definition first_of (a b : option R) : option R :=
  match a with
  | Some r => Some r
  | None => b
  end.

(** Greedy repetition: one more character is tried before the
    continuation. *)
Fixpoint greedy (cls : ascii -> bool) (k : string -> option R) (s : string)
  : option R :=
  match s with
  | String c s' => if cls c then first_of (greedy cls k s') (k s) else k s
  | EmptyString => k s
  end.

(** Lazy repetition: the continuation is tried before one more
    character. *)
Fixpoint lazy (cls : ascii -> bool) (k : string -> option R) (s : string)
  : option R :=
  first_of (k s)
    match s with
    | String c s' => if cls c then lazy cls k s' else None
    | EmptyString => None
    end.

Definition step (a : atom) (k : string -> option R) (s : string) : option R :=
  let '(cls, q) := a in
  match q with
  | Once => once cls k s
  | Optional => first_of (once cls k s) (k s)
  | Star => greedy cls k s
  | Plus => once cls (greedy cls k) s
  | LazyPlus => once cls (lazy cls k) s
  end.

Fixpoint run (p : list atom) (k : string -> option R) (s : string) : option R :=
  match p with
  | [] => k s
  | a :: p' => step a (run p' k) s
  end.

End Backtracking.

(** [s[: len(s) - len(rest)]]: what was consumed between [s] and [rest]. *)
Fixpoint take (n : nat) (s : string) : string :=
  match n with
  | O => EmptyString
  | S n' =>
      match s with
      | EmptyString => EmptyString
      | String c s' => String c (take n' s')
      end
  end.

Definition consumed (s rest : string) : string :=
  take (String.length s - String.length rest) s.

(** A pattern [pre(grp)post] with one group. *)
Record pattern : Type := { pre : list atom; grp : list atom; post : list atom }.

(** [re.match(p, s).group(1)]. *)
Definition match_here (p : pattern) (s : string) : option string :=
  run (pre p) (fun s1 =>
    run (grp p) (fun s2 =>
      run (post p) (fun _ => Some (consumed s1 s2)) s2) s1) s.

(** [re.search(p, s)], then [.group(1)]: the first position with a match. *)
Fixpoint search (p : pattern) (s : string) : option string :=
  first_of (match_here p s)
    match s with
    | String _ s' => search p s'
    | EmptyString => None
    end.

Definition char (c : ascii) : atom := (Ascii.eqb c, Once).

(** A character under [re.IGNORECASE]. *)
Definition char_i (c : ascii) : atom := (fun x => Ascii.eqb (lower x) (lower c), Once).

Fixpoint literal (s : string) : list atom :=
  match s with
  | EmptyString => []
  | String c s' => char c :: literal s'
  end.

Fixpoint literal_i (s : string) : list atom :=
  match s with
  | EmptyString => []
  | String c s' => char_i c :: literal_i s'
  end.

(** [[\d,\.]] *)
Definition count_char (c : ascii) : bool :=
  is_digit c || Ascii.eqb c "," || Ascii.eqb c ".".

(** [[KMB]] under [re.IGNORECASE] *)
Definition suffix_char_i (c : ascii) : bool :=
  Ascii.eqb (lower c) "k" || Ascii.eqb (lower c) "m" || Ascii.eqb (lower c) "b".

(** [.] : any character but a newline *)
Definition dot (c : ascii) : bool := negb (code c =? 10).

(** [r'([\d,\.]+[KMB]?)\s+<word>'] with [re.IGNORECASE]. *)
Definition count_before (word : string) : pattern :=
  {| pre := [];
     grp := [(count_char, Plus); (suffix_char_i, Optional)];
     post := (isspace, Plus) :: literal_i word |}.

(** [r'window\._sharedData\s*=\s*({.+?});'] *)
Definition shared_data_assignment : pattern :=
  {| pre := literal "window._sharedData" ++ [(isspace, Star); char "="; (isspace, Star)];
     grp := [char "{"; (dot, LazyPlus); char "}"];
     post := [char ";"] |}.

End Re.

(** ** The fragment of BeautifulSoup the scraper uses *)

Module Bs4.

(** An element of the parsed page: its name, its attributes, and [.string],
    the text of its only child when that is a text.  A page is the list of
    its elements in document order. *)
Record tag : Type :=
  { name : string; attrs : list (string * string); tstring : option string }.

Definition soup : Type := list tag.

(** [tag.get(key)] *)
Fixpoint attr (key : string) (l : list (string * string)) : option string :=
  match l with
  | [] => None
  | (k, v) :: l' => if String.eqb key k then Some v else attr key l'
  end.

Definition tag_get (t : tag) (key : string) : option string := attr key (attrs t).

Definition matches (nm key val : string) (t : tag) : bool :=
  String.eqb (name t) nm &&
  match tag_get t key with
  | Some v => String.eqb v val
  | None => false
  end.

(** [soup.find_all(nm, key=val)] *)
Definition find_all (nm key val : string) (page : soup) : list tag :=
  filter (matches nm key val) page.

(** [soup.find(nm, key=val)] *)
Definition find (nm key val : string) (page : soup) : option tag :=
  List.find (matches nm key val) page.

End Bs4.

(** ** The scraper *)

Module Scraper.
Import Py Obj Bs4.

(** What [self.session.get(url, ...)] gave: the exception of [requests], or
    a response with its status code and its body.  The body of a page is the
    page as BeautifulSoup parsed it; the body of an endpoint is what
    [response.json()] gave, [None] when it raised its decoding error. *)
Inductive fetched (body : Type) : Type :=
| RequestException
| Response (status_code : Z) (content : body).

Arguments RequestException {body}.
Arguments Response {body} status_code content.

(** The [error] entry of a failure; the text of an exception is not
    modelled, its class is kept. *)
Inductive error : Type :=
| HTTP (status_code : Z)               (* f'HTTP {response.status_code}' *)
| Could_not_extract                    (* 'Could not extract user data from page' *)
| Request_failed                       (* f'Request failed: {str(e)}' *)
| Parsing_failed (e : exn)             (* f'Parsing failed: {str(e)}' *)
| All_JSON_endpoints_failed.           (* 'All JSON endpoints failed' *)

(** The dictionary a strategy returns: [{'success': True, 'method': ...,
    'data': ...}] or [{'success': False, 'error': ...}]. *)
Inductive outcome : Type :=
| Success (method : string) (data : value)
| Failure (err : error).

Definition base_url : string := "https://www.instagram.com".

(** [try: return int(float(count_str) * multiplier)], then
    [except ValueError: return 0]. *)
Definition scale (count_str : string) (multiplier : Z) : result Z :=
  try_except
    (x <- float count_str ;;
     int_of_float (float_mul x (float_of_int multiplier)))
    is_ValueError
    (fun _ => Ok 0).

(** [_convert_count(self, count_str)]; [None] is Python's [None]. *)
Definition _convert_count (count_str : option string) : result Z :=
  match count_str with
  | None => Ok 0
  | Some s =>
      if is_empty s then Ok 0
      else
        let s := replace "," "" s in
        if endswith s "K" then scale (drop_last s) 1000
        else if endswith s "M" then scale (drop_last s) 1000000
        else if endswith s "B" then scale (drop_last s) 1000000000
        else scale s 1
  end.

(** [if m: n = self._convert_count(m.group(1))], with [n = 0] before. *)
Definition count_of_match (m : option string) : result Z :=
  match m with
  | Some token => _convert_count (Some token)
  | None => Ok 0
  end.

Definition content_of (t : option tag) : option string :=
  match t with
  | Some t => tag_get t "content"
  | None => None
  end.

(** The [try] block of [_extract_meta_data]. *)
Definition meta_data_body (page : soup) : result (option value) :=
  let title := find "meta" "property" "og:title" page in
  let description := find "meta" "property" "og:description" page in
  let image := find "meta" "property" "og:image" page in
  let username := content_of title in
  let bio := content_of description in
  let profile_pic := content_of image in
  match username with
  | Some username =>
      if negb (is_empty username) then
        counts <-
          match bio with
          | Some b =>
              if negb (is_empty b) then
                let follower_match := Re.search (Re.count_before "Followers") b in
                let following_match := Re.search (Re.count_before "Following") b in
                let posts_match := Re.search (Re.count_before "Posts") b in
                followers <- count_of_match follower_match ;;
                following <- count_of_match following_match ;;
                posts <- count_of_match posts_match ;;
                Ok (followers, following, posts)
              else Ok (0, 0, 0)
          | None => Ok (0, 0, 0)
          end ;;
        let '(followers, following, posts) := counts in
        Ok (Some (VDict
          [ ("username", VStr (replace ")" "" (replace " (@" "" username)));
            ("biography", of_option_str bio);
            ("profile_pic", of_option_str profile_pic);
            ("followers", VInt followers);
            ("following", VInt following);
            ("posts", VInt posts) ]))
      else Ok None
  | None => Ok None
  end.

(** [_extract_meta_data(self, soup)]: [except Exception: pass], then
    [return None]. *)
Definition _extract_meta_data (page : soup) : option value :=
  match meta_data_body page with
  | Ok r => r
  | Raise _ => None
  end.

(** [user_data.get(container, {}).get('count', 0)] *)
Definition nested_count (user_data : value) (container : string) : result value :=
  c <- get user_data container (VDict []) ;;
  get c "count" (VInt 0).

(** The [try] block of [_extract_user_info]. *)
Definition user_info_body (user_data : value) : result value :=
  id <- get user_data "id" VNone ;;
  username <- get user_data "username" VNone ;;
  full_name <- get user_data "full_name" VNone ;;
  biography <- get user_data "biography" VNone ;;
  followers <- nested_count user_data "edge_followed_by" ;;
  following <- nested_count user_data "edge_follow" ;;
  posts <- nested_count user_data "edge_owner_to_timeline_media" ;;
  pic_hd <- get user_data "profile_pic_url_hd" VNone ;;
  profile_pic <-
    (if truthy pic_hd then Ok pic_hd else get user_data "profile_pic_url" VNone) ;;
  is_verified <- get user_data "is_verified" (VBool false) ;;
  is_business <- get user_data "is_business_account" (VBool false) ;;
  external_url <- get user_data "external_url" VNone ;;
  is_private <- get user_data "is_private" (VBool false) ;;
  Ok (VDict
    [ ("id", id);
      ("username", username);
      ("full_name", full_name);
      ("biography", biography);
      ("followers", followers);
      ("following", following);
      ("posts", posts);
      ("profile_pic", profile_pic);
      ("is_verified", is_verified);
      ("is_business", is_business);
      ("external_url", external_url);
      ("is_private", is_private) ]).

(** [_extract_user_info(self, user_data)]: [except Exception: return
    user_data]. *)
Definition _extract_user_info (user_data : value) : value :=
  match user_info_body user_data with
  | Ok info => info
  | Raise _ => user_data
  end.

(** [k1 in data and k2 in data[k1]] *)
Definition has_path (data : value) (k1 k2 : string) : result bool :=
  b <- py_in k1 data ;;
  if b then (inner <- getitem data k1 ;; py_in k2 inner) else Ok false.

(** [data[k1][k2]] *)
Definition at_path (data : value) (k1 k2 : string) : result value :=
  inner <- getitem data k1 ;; getitem inner k2.

(** The body of the inner [try] of [get_user_data_json_endpoint] once
    [response.json()] has returned [data]: the outcome returned, or [None]
    when the loop goes on to the next endpoint. *)
Definition endpoint_data (endpoint : string) (data : value)
  : result (option outcome) :=
  g <- has_path data "graphql" "user" ;;
  if g then
    user <- at_path data "graphql" "user" ;;
    Ok (Some (Success ("JSON_Endpoint: " ++ endpoint) (_extract_user_info user)))
  else
    d <- has_path data "data" "user" ;;
    if d then
      user <- at_path data "data" "user" ;;
      Ok (Some (Success ("JSON_Endpoint: " ++ endpoint) (_extract_user_info user)))
    else Ok None.

Definition endpoints (username : string) : list string :=
  [ base_url ++ "/" ++ username ++ "/?__a=1&__d=dis";
    base_url ++ "/api/v1/users/web_profile_info/?username=" ++ username;
    base_url ++ "/" ++ username ++ "/?__a=1" ].

(** The [for endpoint in endpoints] loop.  Only the decoding error of
    [response.json()] and the exceptions of [requests] are caught; what else
    is raised leaves the function. *)
Fixpoint endpoint_loop (session_get : string -> fetched (option value))
  (eps : list string) : result outcome :=
  match eps with
  | [] => Ok (Failure All_JSON_endpoints_failed)
  | endpoint :: rest =>
      match session_get endpoint with
      | RequestException => endpoint_loop session_get rest
      | Response status_code body =>
          if status_code =? 200 then
            match body with
            | None => endpoint_loop session_get rest
            | Some data =>
                r <- endpoint_data endpoint data ;;
                match r with
                | Some o => Ok o
                | None => endpoint_loop session_get rest
                end
            end
          else endpoint_loop session_get rest
      end
  end.

(** [get_user_data_json_endpoint(self, username)] *)
Definition get_user_data_json_endpoint
  (session_get : string -> fetched (option value)) (username : string)
  : result outcome :=
  endpoint_loop session_get (endpoints username).

Section HtmlStrategy.

(** [json.loads], the decoder of the standard library: the object decoded
    from a text, or the exception raised. *)
Variable json_loads : string -> result value.

(** The text handed to the decoder for one script node: the group of the
    pattern, when the node has a text that holds the marker and the pattern
    matches. *)
Definition script_literal (script : tag) : option string :=
  match tstring script with
  | Some text =>
      if negb (is_empty text) && contains text "window._sharedData"
      then Re.search Re.shared_data_assignment text
      else None
  | None => None
  end.

(** The body of [for script in scripts]: the user object found in this
    node, or [None] when the loop goes on to the next node. *)
Definition script_user (script : tag) : result (option value) :=
  match script_literal script with
  | Some literal =>
      shared_data <- json_loads literal ;;
      b <- has_path shared_data "entry_data" "ProfilePage" ;;
      if b then
        pages <- at_path shared_data "entry_data" "ProfilePage" ;;
        page <- getitem0 pages ;;
        user_data <- at_path page "graphql" "user" ;;
        Ok (Some user_data)
      else Ok None
  | None => Ok None
  end.

Fixpoint scan_scripts (scripts : list tag) : result (option value) :=
  match scripts with
  | [] => Ok None
  | script :: rest =>
      r <- script_user script ;;
      match r with
      | Some user_data => Ok (Some user_data)
      | None => scan_scripts rest
      end
  end.

(** The [try] block of [get_user_data_requests] after the page was
    fetched with status 200 and parsed. *)
Definition page_body (page : soup) : result outcome :=
  r <- scan_scripts (find_all "script" "type" "text/javascript" page) ;;
  match r with
  | Some user_data => Ok (Success "SharedData" (_extract_user_info user_data))
  | None =>
      match _extract_meta_data page with
      | Some meta_data => Ok (Success "MetaTags" meta_data)
      | None => Ok (Failure Could_not_extract)
      end
  end.

(** [get_user_data_requests(self, username)] *)
Definition get_user_data_requests (session_get : string -> fetched soup)
  (username : string) : outcome :=
  match session_get (base_url ++ "/" ++ username ++ "/") with
  | RequestException => Failure Request_failed
  | Response status_code page =>
      if negb (status_code =? 200) then Failure (HTTP status_code)
      else
        match page_body page with
        | Ok o => o
        | Raise e => Failure (Parsing_failed e)
        end
  end.

End HtmlStrategy.

(** *** The test harness

    [print] and [time.sleep] are effects outside the model; the arguments
    of a [print] are evaluated all the same, since they may raise. *)

(** One element of the list [test_all_methods] returns, the dictionary
    [{'method': method_name, 'username': username, **result}], key by key;
    an entry the dictionary does not have is [None]. *)
Record entry : Type :=
  { r_method : string;
    r_username : string;
    r_success : bool;
    r_data : option value;
    r_error : option error }.

(** The keys of [result] are written last: on a success its ['method']
    replaces [method_name]. *)
Definition entry_of (method_name username : string) (r : outcome) : entry :=
  match r with
  | Success method data =>
      {| r_method := method; r_username := username; r_success := true;
         r_data := Some data; r_error := None |}
  | Failure err =>
      {| r_method := method_name; r_username := username; r_success := false;
         r_data := None; r_error := Some err |}
  end.

(** The [if result['success'] and 'data' in result: ... else: ...] block:
    four [data.get(key, 'N/A')] on a success, [result.get('error', ...)]
    otherwise. *)
Definition report (r : outcome) : result unit :=
  match r with
  | Success _ data =>
      _ <- get data "username" (VStr "N/A") ;;
      _ <- get data "followers" (VStr "N/A") ;;
      _ <- get data "posts" (VStr "N/A") ;;
      _ <- get data "is_verified" (VStr "N/A") ;;
      Ok tt
  | Failure _ => Ok tt
  end.

(** The [for method_name, method_func in methods] loop; [results] is the
    list built so far. *)
Fixpoint run_methods (methods : list (string * (string -> result outcome)))
  (username : string) (results : list entry) : result (list entry) :=
  match methods with
  | [] => Ok results
  | (method_name, method_func) :: rest =>
      r <- method_func username ;;
      let results := (results ++ [entry_of method_name username r])%list in
      _ <- report r ;;
      run_methods rest username results
  end.

(** [test_all_methods(self, username)]; the session's [get] is given once
    for the endpoints and once for the page. *)
Definition test_all_methods (json_loads : string -> result value)
  (get_json : string -> fetched (option value)) (get_page : string -> fetched soup)
  (username : string) : result (list entry) :=
  run_methods
    [ ("JSON Endpoints", get_user_data_json_endpoint get_json);
      ("HTML Scraping",
         fun username => Ok (get_user_data_requests json_loads get_page username)) ]
    username [].

(** [test_users] in [main]: the arguments of the command line when there
    are some. *)
Definition test_users (argv : list string) : list string :=
  if (1 <? List.length argv)%nat then tl argv
  else ["cristiano"; "therock"; "selenagomez"].

(** The [for username in test_users] loop. *)
Fixpoint run_users (json_loads : string -> result value)
  (get_json : string -> fetched (option value)) (get_page : string -> fetched soup)
  (users : list string) (all_results : list entry) : result (list entry) :=
  match users with
  | [] => Ok all_results
  | username :: rest =>
      results <- test_all_methods json_loads get_json get_page username ;;
      run_users json_loads get_json get_page rest (all_results ++ results)%list
  end.

(** [main()], as what it prints after the loop: the lines of the summary,
    each the user name, the method and the success of an entry, and under
    [--json] the list that is dumped. *)
Definition main (json_loads : string -> result value)
  (get_json : string -> fetched (option value)) (get_page : string -> fetched soup)
  (argv : list string) : result (list (string * string * bool) * option (list entry)) :=
  all_results <- run_users json_loads get_json get_page (test_users argv) [] ;;
  Ok (map (fun r => (r_username r, r_method r, r_success r)) all_results,
      if existsb (String.eqb "--json") argv then Some all_results else None).

End Scraper.

(** ** Vocabulary of the statements *)

Import Py Obj Bs4 Scraper.

(** The entry [k] of the dictionary an extractor returned. *)
Definition field (k : string) (r : option value) : option value :=
  match r with
  | Some (VDict d) => lookup k d
  | _ => None
  end.

(** [<meta property=p content=c>] *)
Definition meta (p c : string) : tag :=
  {| name := "meta"; attrs := [("property", p); ("content", c)]; tstring := None |}.

(** [<script type="text/javascript">text</script>] *)
Definition script (text : string) : tag :=
  {| name := "script"; attrs := [("type", "text/javascript")]; tstring := Some text |}.

Definition jane_doe_page : soup :=
  [ meta "og:title" "Jane Doe (@janedoe)";
    meta "og:description" "1.2M Followers, 500 Following, 1,234 Posts" ].

(** A profile page whose title has no text. *)
Definition untitled_page : soup :=
  [ meta "og:title" "";
    meta "og:description" "1.2M Followers, 500 Following, 1,234 Posts";
    meta "og:image" "https://cdn.example/jane.jpg" ].

(** [{"username": "x", "is_verified": true}] *)
Definition user_x : value :=
  VDict [("username", VStr "x"); ("is_verified", VBool true)].

(** [{"data": {"user": {"username": "x", "is_verified": true}}}] *)
Definition payload_data_user : value := VDict [("data", VDict [("user", user_x)])].

(** [{"graphql": null}] *)
Definition payload_graphql_null : value := VDict [("graphql", VNone)].

(** [{"graphql": {"user": null}, "data": {"user": {"username": "x",
    "is_verified": true}}}] *)
Definition payload_null_user : value :=
  VDict [("graphql", VDict [("user", VNone)]); ("data", VDict [("user", user_x)])].

(** Every endpoint answers 200 with the same decoded body. *)
Definition always (data : value) : string -> fetched (option value) :=
  fun _ => Response 200 (Some data).

(** The multiplier a last character stands for. *)
Definition suffix_multiplier (c : ascii) : option Z :=
  if Ascii.eqb c "K" then Some 1000
  else if Ascii.eqb c "M" then Some 1000000
  else if Ascii.eqb c "B" then Some 1000000000
  else None.

(** The lower-case letters [k], [m], [b]. *)
Definition lower_suffix (c : ascii) : bool :=
  Ascii.eqb c "k" || Ascii.eqb c "m" || Ascii.eqb c "b".

(** The value under [k1] then [k2] in a dictionary of dictionaries. *)
Definition path (d : list (string * value)) (k1 k2 : string) : option value :=
  match lookup k1 d with
  | Some (VDict inner) => lookup k2 inner
  | _ => None
  end.

(** The entry [k] of [d] is absent or a dictionary. *)
Definition container_ok (d : list (string * value)) (k : string) : bool :=
  match lookup k d with
  | Some c => is_dict c
  | None => true
  end.

(** The [count] of the container [k], as the raw object has it; 0 when the
    container or its [count] is absent. *)
Definition raw_count (d : list (string * value)) (k : string) : value :=
  match lookup k d with
  | Some (VDict c) =>
      match lookup "count" c with
      | Some v => v
      | None => VInt 0
      end
  | _ => VInt 0
  end.

Definition count_containers : list string :=
  ["edge_followed_by"; "edge_follow"; "edge_owner_to_timeline_media"].

(** A raw user object on which a field access of the normalizer throws: it
    is no dictionary, or one of its count containers is no dictionary. *)
Definition unexpected_shape (user_data : value) : bool :=
  match user_data with
  | VDict d => existsb (fun k => negb (container_ok d k)) count_containers
  | _ => true
  end.

Definition nonneg_int (v : value) : bool :=
  match v with
  | VInt n => 0 <=? n
  | _ => false
  end.

(** The step of the HTML strategy after the script nodes: the meta tags. *)
Definition meta_outcome (page : soup) : outcome :=
  match _extract_meta_data page with
  | Some meta_data => Success "MetaTags" meta_data
  | None => Failure Could_not_extract
  end.

(** A decoder on texts that are not JSON: [json.loads] raises its decoding
    error. *)
Definition rejected : string -> result value := fun _ => Raise JSONDecodeError.

(** A page with meta tags and a script whose object literal is not JSON. *)
Definition broken_script_page : soup :=
  script "window._sharedData = {oops};" :: jane_doe_page.

(** A page with meta tags, a script without the marker, and a script whose
    object literal is not JSON. *)
Definition two_scripts_page : soup :=
  script "var x = 1;" :: script "window._sharedData = {oops};" :: jane_doe_page.

(** The scan of one script node left the loop going. *)
Definition skips (r : result (option value)) : bool :=
  match r with
  | Ok None => true
  | _ => false
  end.

(** What the HTML strategy returns once the scan of a script node has ended
    the loop. *)
Definition decided (r : result (option value)) : outcome :=
  match r with
  | Ok (Some user_data) => Success "SharedData" (_extract_user_info user_data)
  | Ok None => Failure Could_not_extract
  | Raise e => Failure (Parsing_failed e)
  end.

(** The last character of [s] satisfies [P]. *)
Fixpoint last_is (P : ascii -> bool) (s : string) : bool :=
  match s with
  | EmptyString => false
  | String c EmptyString => P c
  | String _ s' => last_is P s'
  end.

(** Characters no number ends with: the lower-case suffixes, and the mark
    the conversion to ASCII leaves for a foreign character. *)
Definition never_read (c : ascii) : bool := lower_suffix c || Ascii.eqb c "?".

(** A count of 310 digits, [10 ^ 309]: more than any [float]. *)
Definition huge_count : string :=
  "1000000000000000000000000000000000000000000000000000000000000000000000000000000000000000000000000000000000000000000000000000000000000000000000000000000000000000000000000000000000000000000000000000000000000000000000000000000000000000000000000000000000000000000000000000000000000000000000000000000000000000000000".

(** [s] is a run of decimal digits. *)
Fixpoint all_digits (s : string) : bool :=
  match s with
  | EmptyString => true
  | String c t => is_digit c && all_digits t
  end.

(** The number a run of digits denotes, read onto [acc]. *)
Fixpoint decimal (acc : Z) (s : string) : Z :=
  match s with
  | EmptyString => acc
  | String c t => decimal (10 * acc + digit_val c) t
  end.

(** The suffixes the parser cuts off, with their multipliers. *)
Definition suffixes : list (string * Z) :=
  [("", 1); ("K", 1000); ("M", 1000000); ("B", 1000000000)].

(** The number of bits of a positive integer. *)
Definition bits (k : Z) : Z := Z.log2 k + 1.

(** The [float] that is the integer [k], for [0 < k < 2 ^ 53]: its 53-bit
    mantissa and its exponent. *)
Definition float_exact (k : Z) : spec_float :=
  S754_finite false (Z.to_pos (k * 2 ^ (53 - bits k))) (bits k - 53).

(** [s] holds no minus sign. *)
Fixpoint no_minus (s : string) : bool :=
  match s with
  | EmptyString => true
  | String c t => negb (Ascii.eqb c "-") && no_minus t
  end.

(** A [float] that is not below zero: its sign bit is clear, or it is a
    NaN. *)
Definition sign_clear (x : spec_float) : bool :=
  match x with
  | S754_zero s | S754_infinity s | S754_finite s _ _ => negb s
  | S754_nan => true
  end.

(** Every character of [s] satisfies [P]. *)
Fixpoint all_chars (P : ascii -> bool) (s : string) : bool :=
  match s with
  | EmptyString => true
  | String c t => P c && all_chars P t
  end.

(** The keys of a dictionary, in order. *)
Definition keys (v : value) : list string :=
  match v with
  | VDict d => map fst d
  | _ => []
  end.

(** The tags of the two HTML methods. *)
Definition html_tags : list string := ["SharedData"; "MetaTags"].

(** What the JSON strategy does at one endpoint: [None] when the loop goes
    on to the next one. *)
Definition endpoint_step (session_get : string -> fetched (option value))
  (endpoint : string) : result (option outcome) :=
  match session_get endpoint with
  | Response status_code (Some data) =>
      if status_code =? 200 then endpoint_data endpoint data else Ok None
  | _ => Ok None
  end.



(** The outcome can be reported by the harness: its data, if any, has a
    [get] method. *)
Definition reportable (r : outcome) : bool :=
  match r with
  | Success _ data => is_dict data
  | Failure _ => true
  end.

(** The entry [k] of a record, [None] when it has none. *)
Definition entry_or_none (k : string) (d : list (string * value)) : value :=
  match lookup k d with
  | Some v => v
  | None => VNone
  end.

(** The tag of a success: one of the two HTML tags, or the JSON tag with
    its endpoint.  The names the harness gives its methods are none of
    them. *)
Definition strategy_tag (method : string) : Prop :=
  In method html_tags \/ exists endpoint, method = "JSON_Endpoint: " ++ endpoint.


(** Every page is the page of Jane Doe. *)
Definition jane_doe_site : string -> fetched soup :=
  fun _ => Response 200 jane_doe_page.

(** The entry [k] of a raw object, [False] when it has none. *)
Definition entry_or_false (k : string) (d : list (string * value)) : value :=
  match lookup k d with
  | Some v => v
  | None => VBool false
  end.

(** ** Properties *)

(** *** JSON endpoint *)

(** C9: on the payload [{"data": {"user": {"username": "x", "is_verified":
    true}}}] the JSON endpoint extractor yields the normalized record with
    username ["x"], [is_verified] true and [followers] 0 (every other field
    at its default); on the empty payload [{}] it yields nothing. *)
Theorem C9_data_user_payload_and_empty_payload :
  forall endpoint : string,
    endpoint_data endpoint payload_data_user =
      Ok (Some (Success ("JSON_Endpoint: " ++ endpoint)
        (VDict
          [ ("id", VNone); ("username", VStr "x"); ("full_name", VNone);
            ("biography", VNone); ("followers", VInt 0); ("following", VInt 0);
            ("posts", VInt 0); ("profile_pic", VNone);
            ("is_verified", VBool true); ("is_business", VBool false);
            ("external_url", VNone); ("is_private", VBool false) ])))
    /\ endpoint_data endpoint (VDict []) = Ok None.
Proof.
  intro endpoint. split; reflexivity.
Qed.

(** The whole strategy on the empty payload: the three endpoints are tried
    and the failure is returned. *)
Lemma json_endpoint_empty_payload :
  forall username,
    get_user_data_json_endpoint (always (VDict [])) username =
      Ok (Failure All_JSON_endpoints_failed).
Proof.
  intro username. reflexivity.
Qed.

(** C3: at the payload [{"graphql": null}] the JSON endpoint strategy
    raises: ['user' in None] is a [TypeError], which neither [except]
    clause of the function catches. *)
Theorem C3_json_endpoint_raises_on_null_graphql :
  forall username,
    get_user_data_json_endpoint (always payload_graphql_null) username =
      Raise TypeError.
Proof.
  intro username. reflexivity.
Qed.

(** *** Meta tags *)

(** C10: a page whose [og:title] tag is present with an empty [content]
    gives nothing, whatever its other tags. *)
Theorem C10_empty_title_content_yields_absent :
  forall (page : soup) (title : tag),
    find "meta" "property" "og:title" page = Some title ->
    tag_get title "content" = Some "" ->
    _extract_meta_data page = None.
Proof.
  intros page title Hfind Hcontent.
  unfold _extract_meta_data, meta_data_body.
  rewrite Hfind. cbn [content_of]. rewrite Hcontent. reflexivity.
Qed.

Lemma C10_witness :
  find "meta" "property" "og:title" untitled_page = Some (meta "og:title" "")
  /\ tag_get (meta "og:title" "") "content" = Some ""
  /\ content_of (find "meta" "property" "og:description" untitled_page)
       = Some "1.2M Followers, 500 Following, 1,234 Posts"
  /\ content_of (find "meta" "property" "og:image" untitled_page)
       = Some "https://cdn.example/jane.jpg"
  /\ _extract_meta_data untitled_page = None.
Proof.
  split; [reflexivity |]. split; [reflexivity |].
  split; [reflexivity |]. split; [reflexivity |].
  apply (C10_empty_title_content_yields_absent untitled_page (meta "og:title" ""));
    reflexivity.
Defined.

(** The record of the page whose title is ["Jane Doe (@janedoe)"]: the two
    replacements delete [" (@"] and [")"], and the handle stays. *)
Lemma jane_doe_page_record :
  _extract_meta_data jane_doe_page =
    Some (VDict
      [ ("username", VStr "Jane Doejanedoe");
        ("biography", VStr "1.2M Followers, 500 Following, 1,234 Posts");
        ("profile_pic", VNone);
        ("followers", VInt 1200000);
        ("following", VInt 500);
        ("posts", VInt 1234) ]).
Proof.
  vm_compute. reflexivity.
Qed.

(** C1, as stated, fails on the username: at the page of the claim the
    extractor gives ["Jane Doejanedoe"], which is not ["Jane Doe"]. *)
Lemma C1_username_keeps_the_handle :
  field "username" (_extract_meta_data jane_doe_page) = Some (VStr "Jane Doejanedoe")
  /\ VStr "Jane Doejanedoe" <> VStr "Jane Doe".
Proof.
  split.
  - rewrite jane_doe_page_record. reflexivity.
  - discriminate.
Qed.

(** C1, amended: a page whose [og:title] content is ["Jane Doe (@janedoe)"]
    and whose [og:description] content is ["1.2M Followers, 500 Following,
    1,234 Posts"] gives the record with username ["Jane Doejanedoe"],
    followers 1200000, following 500 and posts 1234; the biography is the
    description and the picture is the [og:image] content. *)
Theorem C1_jane_doe_record :
  forall page : soup,
    content_of (find "meta" "property" "og:title" page) = Some "Jane Doe (@janedoe)" ->
    content_of (find "meta" "property" "og:description" page)
      = Some "1.2M Followers, 500 Following, 1,234 Posts" ->
    _extract_meta_data page =
      Some (VDict
        [ ("username", VStr "Jane Doejanedoe");
          ("biography", VStr "1.2M Followers, 500 Following, 1,234 Posts");
          ("profile_pic",
             of_option_str (content_of (find "meta" "property" "og:image" page)));
          ("followers", VInt 1200000);
          ("following", VInt 500);
          ("posts", VInt 1234) ]).
Proof.
  intros page Htitle Hdescription.
  unfold _extract_meta_data, meta_data_body.
  rewrite Htitle, Hdescription.
  generalize (content_of (find "meta" "property" "og:image" page)) as picture.
  intro picture. vm_compute. reflexivity.
Qed.

Lemma C1_witness :
  _extract_meta_data jane_doe_page =
    Some (VDict
      [ ("username", VStr "Jane Doejanedoe");
        ("biography", VStr "1.2M Followers, 500 Following, 1,234 Posts");
        ("profile_pic",
           of_option_str (content_of (find "meta" "property" "og:image" jane_doe_page)));
        ("followers", VInt 1200000);
        ("following", VInt 500);
        ("posts", VInt 1234) ]).
Proof.
  apply (C1_jane_doe_record jane_doe_page); reflexivity.
Defined.

(** *** Normalizer *)

Lemma get_dict :
  forall d k default,
    get (VDict d) k default =
      Ok (match lookup k d with Some x => x | None => default end).
Proof.
  reflexivity.
Qed.

(** The nested count of a container that is absent or a dictionary. *)
Lemma nested_count_ok :
  forall d k,
    container_ok d k = true ->
    nested_count (VDict d) k = Ok (raw_count d k).
Proof.
  intros d k H. unfold nested_count, raw_count, container_ok in *.
  rewrite get_dict. cbn [bind].
  destruct (lookup k d) as [c |]; [| reflexivity].
  destruct c; try discriminate H. reflexivity.
Qed.

(** The nested count of a container that is neither raises. *)
Lemma nested_count_raises :
  forall d k,
    container_ok d k = false ->
    nested_count (VDict d) k = Raise AttributeError.
Proof.
  intros d k H. unfold nested_count, container_ok in *.
  rewrite get_dict. cbn [bind].
  destruct (lookup k d) as [c |]; [| discriminate H].
  destruct c; try discriminate H; reflexivity.
Qed.

(** The [try] block on a dictionary: the twelve fields, the three counts
    being the only accesses that can raise. *)
Lemma user_info_body_dict :
  forall d,
    user_info_body (VDict d) =
      (followers <- nested_count (VDict d) "edge_followed_by" ;;
       following <- nested_count (VDict d) "edge_follow" ;;
       posts <- nested_count (VDict d) "edge_owner_to_timeline_media" ;;
       Ok (VDict
         [ ("id", match lookup "id" d with Some x => x | None => VNone end);
           ("username", match lookup "username" d with Some x => x | None => VNone end);
           ("full_name", match lookup "full_name" d with Some x => x | None => VNone end);
           ("biography", match lookup "biography" d with Some x => x | None => VNone end);
           ("followers", followers);
           ("following", following);
           ("posts", posts);
           ("profile_pic",
              or_else
                (match lookup "profile_pic_url_hd" d with Some x => x | None => VNone end)
                (match lookup "profile_pic_url" d with Some x => x | None => VNone end));
           ("is_verified",
              match lookup "is_verified" d with Some x => x | None => VBool false end);
           ("is_business",
              match lookup "is_business_account" d with Some x => x | None => VBool false end);
           ("external_url",
              match lookup "external_url" d with Some x => x | None => VNone end);
           ("is_private",
              match lookup "is_private" d with Some x => x | None => VBool false end) ])).
Proof.
  intro d. unfold user_info_body. rewrite !get_dict. cbn [bind].
  destruct (nested_count (VDict d) "edge_followed_by"); [| reflexivity].
  destruct (nested_count (VDict d) "edge_follow"); [| reflexivity].
  destruct (nested_count (VDict d) "edge_owner_to_timeline_media"); [| reflexivity].
  cbn [bind]. unfold or_else.
  destruct (truthy _); reflexivity.
Qed.

(** The [try] block raises exactly on the unexpected shapes. *)
Lemma user_info_body_raises_iff :
  forall user_data,
    unexpected_shape user_data = true <->
    user_info_body user_data = Raise AttributeError.
Proof.
  intro user_data. destruct user_data as [| b | n | x | s | l | d];
    try (split; reflexivity).
  rewrite user_info_body_dict.
  unfold unexpected_shape, count_containers. cbn [existsb].
  destruct (container_ok d "edge_followed_by") eqn:H1.
  - rewrite (nested_count_ok _ _ H1). cbn [bind negb orb].
    destruct (container_ok d "edge_follow") eqn:H2.
    + rewrite (nested_count_ok _ _ H2). cbn [bind negb orb].
      destruct (container_ok d "edge_owner_to_timeline_media") eqn:H3.
      * rewrite (nested_count_ok _ _ H3). cbn [bind negb orb].
        split; discriminate.
      * rewrite (nested_count_raises _ _ H3). cbn [bind negb orb].
        split; reflexivity.
    + rewrite (nested_count_raises _ _ H2). cbn [bind negb orb].
      split; reflexivity.
  - rewrite (nested_count_raises _ _ H1). cbn [bind negb orb].
    split; reflexivity.
Qed.

(** Whatever is raised in the [try] block is an [AttributeError]. *)
Lemma user_info_body_raises_only_on_unexpected_shape :
  forall user_data e,
    user_info_body user_data = Raise e -> unexpected_shape user_data = true.
Proof.
  intros user_data e H.
  destruct (unexpected_shape user_data) eqn:Hshape; [reflexivity |].
  destruct user_data as [| b | n | x | s | l | d]; try discriminate Hshape.
  rewrite user_info_body_dict in H.
  unfold unexpected_shape, count_containers in Hshape. cbn [existsb] in Hshape.
  destruct (container_ok d "edge_followed_by") eqn:H1; [| discriminate Hshape].
  destruct (container_ok d "edge_follow") eqn:H2; [| discriminate Hshape].
  destruct (container_ok d "edge_owner_to_timeline_media") eqn:H3; [| discriminate Hshape].
  rewrite (nested_count_ok _ _ H1), (nested_count_ok _ _ H2), (nested_count_ok _ _ H3) in H.
  discriminate H.
Qed.

(** C8: on a raw user object of unexpected shape (no dictionary, or a count
    container that is no dictionary) a field access of the [try] block
    raises, and the normalizer returns the raw object itself. *)
Theorem C8_unexpected_shape_returns_raw_input :
  forall user_data : value,
    unexpected_shape user_data = true ->
    user_info_body user_data = Raise AttributeError
    /\ _extract_user_info user_data = user_data.
Proof.
  intros user_data H.
  apply user_info_body_raises_iff in H.
  split; [exact H |].
  unfold _extract_user_info. rewrite H. reflexivity.
Qed.

Lemma C8_witness :
  unexpected_shape (VDict [("username", VStr "x"); ("edge_follow", VInt 7)]) = true
  /\ user_info_body (VDict [("username", VStr "x"); ("edge_follow", VInt 7)])
       = Raise AttributeError
  /\ _extract_user_info (VDict [("username", VStr "x"); ("edge_follow", VInt 7)])
       = VDict [("username", VStr "x"); ("edge_follow", VInt 7)].
Proof.
  split; [reflexivity |].
  apply (C8_unexpected_shape_returns_raw_input
           (VDict [("username", VStr "x"); ("edge_follow", VInt 7)])).
  reflexivity.
Defined.

(** C6, as stated, fails: a raw count is copied as it is, so a negative
    one, or one that is no integer, ends in the record. *)
Lemma C6_negative_count_is_kept :
  field "followers"
    (Some (_extract_user_info
       (VDict [("edge_followed_by", VDict [("count", VInt (-5))])])))
    = Some (VInt (-5))
  /\ nonneg_int (VInt (-5)) = false
  /\ field "posts"
       (Some (_extract_user_info
          (VDict [("edge_owner_to_timeline_media", VDict [("count", VStr "many")])])))
       = Some (VStr "many")
  /\ nonneg_int (VStr "many") = false.
Proof.
  repeat split; reflexivity.
Qed.

(** C6, amended: for a raw user object that is a dictionary whose count
    containers are dictionaries where present, the record's [followers],
    [following] and [posts] are the [count] entries of the containers as the
    raw object has them, and 0 whenever the container or its [count] is
    absent; they are non-negative integers when the raw counts are. *)
Theorem C6_counts_are_the_raw_counts :
  forall d : list (string * value),
    container_ok d "edge_followed_by" = true ->
    container_ok d "edge_follow" = true ->
    container_ok d "edge_owner_to_timeline_media" = true ->
    exists info,
      _extract_user_info (VDict d) = VDict info
      /\ lookup "followers" info = Some (raw_count d "edge_followed_by")
      /\ lookup "following" info = Some (raw_count d "edge_follow")
      /\ lookup "posts" info = Some (raw_count d "edge_owner_to_timeline_media")
      /\ (forall k, container_ok d k = true -> path d k "count" = None ->
            raw_count d k = VInt 0)
      /\ (forall k v, path d k "count" = Some v -> raw_count d k = v).
Proof.
  intros d H1 H2 H3.
  unfold _extract_user_info. rewrite user_info_body_dict.
  rewrite (nested_count_ok _ _ H1), (nested_count_ok _ _ H2), (nested_count_ok _ _ H3).
  cbn [bind]. eexists. split; [reflexivity |].
  split; [reflexivity |]. split; [reflexivity |]. split; [reflexivity |].
  split.
  - intros k Hk Hpath. unfold raw_count, path, container_ok in *.
    destruct (lookup k d) as [c |]; [| reflexivity].
    destruct c; try reflexivity. rewrite Hpath. reflexivity.
  - intros k v Hpath. unfold raw_count, path in *.
    destruct (lookup k d) as [c |]; [| discriminate Hpath].
    destruct c; try discriminate Hpath. rewrite Hpath. reflexivity.
Qed.

Lemma C6_witness :
  exists info,
    _extract_user_info
      (VDict [("username", VStr "x"); ("edge_followed_by", VDict [("count", VInt 42)]);
              ("edge_follow", VDict [])]) = VDict info
    /\ lookup "followers" info = Some (VInt 42)
    /\ lookup "following" info = Some (VInt 0)
    /\ lookup "posts" info = Some (VInt 0).
Proof.
  destruct (C6_counts_are_the_raw_counts
              [("username", VStr "x"); ("edge_followed_by", VDict [("count", VInt 42)]);
               ("edge_follow", VDict [])]
              eq_refl eq_refl eq_refl)
    as [info [Hinfo [Hfollowers [Hfollowing [Hposts _]]]]].
  exists info. repeat split; assumption.
Defined.

(** *** JSON endpoint: the two shapes *)

Lemma has_path_dict :
  forall d k1 k2,
    container_ok d k1 = true ->
    has_path (VDict d) k1 k2 =
      Ok (match path d k1 k2 with Some _ => true | None => false end).
Proof.
  intros d k1 k2 H. unfold has_path, path, container_ok in *.
  cbn [py_in bind getitem].
  destruct (lookup k1 d) as [c |]; [| reflexivity].
  destruct c; try discriminate H. reflexivity.
Qed.

Lemma at_path_dict :
  forall d k1 k2 v,
    path d k1 k2 = Some v -> at_path (VDict d) k1 k2 = Ok v.
Proof.
  intros d k1 k2 v H. unfold at_path, path in *. cbn [getitem].
  destruct (lookup k1 d) as [c |]; [| discriminate H].
  destruct c; try discriminate H. cbn [bind getitem]. rewrite H. reflexivity.
Qed.

(** C7, as stated, fails: a [graphql.user] that is null is present, so the
    [graphql] branch wins with the null as data, and the [data.user] object
    is not looked at. *)
Lemma C7_null_graphql_user_wins :
  endpoint_data "e" payload_null_user = Ok (Some (Success "JSON_Endpoint: e" VNone))
  /\ Success "JSON_Endpoint: e" VNone
       <> Success "JSON_Endpoint: e" (_extract_user_info user_x).
Proof.
  split; [reflexivity | discriminate].
Qed.

(** C7, amended: on a payload that is a dictionary, whose [graphql] entry
    is a dictionary when present, and whose [data] entry is one when it is
    looked at, the extractor takes [graphql.user] when that key is present,
    whatever its value (null included), else [data.user] when that key is
    present, and yields nothing when neither is. *)
Theorem C7_first_present_user_key_wins :
  forall (endpoint : string) (d : list (string * value)),
    container_ok d "graphql" = true ->
    (path d "graphql" "user" = None -> container_ok d "data" = true) ->
    endpoint_data endpoint (VDict d) =
      Ok match path d "graphql" "user" with
         | Some user =>
             Some (Success ("JSON_Endpoint: " ++ endpoint) (_extract_user_info user))
         | None =>
             match path d "data" "user" with
             | Some user =>
                 Some (Success ("JSON_Endpoint: " ++ endpoint) (_extract_user_info user))
             | None => None
             end
         end.
Proof.
  intros endpoint d Hg Hd. unfold endpoint_data.
  rewrite (has_path_dict _ _ _ Hg).
  destruct (path d "graphql" "user") as [user |] eqn:Hgu; cbn [bind].
  - rewrite (at_path_dict _ _ _ _ Hgu). reflexivity.
  - rewrite (has_path_dict _ _ _ (Hd eq_refl)).
    destruct (path d "data" "user") as [user |] eqn:Hdu; cbn [bind].
    + rewrite (at_path_dict _ _ _ _ Hdu). reflexivity.
    + reflexivity.
Qed.

Lemma C7_witness :
  endpoint_data "e" payload_null_user = Ok (Some (Success "JSON_Endpoint: e" VNone))
  /\ endpoint_data "e" payload_data_user
       = Ok (Some (Success "JSON_Endpoint: e" (_extract_user_info user_x)))
  /\ endpoint_data "e" (VDict [("graphql", VDict []); ("data", VDict [])]) = Ok None.
Proof.
  split; [| split].
  - apply (C7_first_present_user_key_wins "e"
             [("graphql", VDict [("user", VNone)]); ("data", VDict [("user", user_x)])]);
      [reflexivity | discriminate].
  - apply (C7_first_present_user_key_wins "e" [("data", VDict [("user", user_x)])]);
      reflexivity.
  - apply (C7_first_present_user_key_wins "e" [("graphql", VDict []); ("data", VDict [])]);
      reflexivity.
Defined.

(** *** HTML strategy: the script nodes *)

Section ScriptScan.

Variable json_loads : string -> result value.

(** A node without text, without the marker or without a match of the
    pattern is skipped. *)
Lemma script_user_no_literal :
  forall s, script_literal s = None -> script_user json_loads s = Ok None.
Proof.
  intros s H. unfold script_user. rewrite H. reflexivity.
Qed.

(** A node whose literal the decoder refuses raises the decoder's
    exception. *)
Lemma script_user_decoder_raises :
  forall s literal e,
    script_literal s = Some literal ->
    json_loads literal = Raise e ->
    script_user json_loads s = Raise e.
Proof.
  intros s literal e Hlit Hloads. unfold script_user.
  rewrite Hlit, Hloads. reflexivity.
Qed.

(** A node whose decoded object has no [entry_data], or an [entry_data]
    dictionary without [ProfilePage], is skipped. *)
Lemma script_user_missing_key :
  forall s literal d,
    script_literal s = Some literal ->
    json_loads literal = Ok (VDict d) ->
    container_ok d "entry_data" = true ->
    path d "entry_data" "ProfilePage" = None ->
    script_user json_loads s = Ok None.
Proof.
  intros s literal d Hlit Hloads Hok Hpath. unfold script_user.
  rewrite Hlit, Hloads. cbn [bind].
  rewrite (has_path_dict _ _ _ Hok), Hpath. reflexivity.
Qed.

(** A node whose [ProfilePage] list is empty raises. *)
Lemma script_user_empty_profile_page :
  forall s literal d,
    script_literal s = Some literal ->
    json_loads literal = Ok (VDict d) ->
    path d "entry_data" "ProfilePage" = Some (VList []) ->
    script_user json_loads s = Raise IndexError.
Proof.
  intros s literal d Hlit Hloads Hpath. unfold script_user.
  rewrite Hlit, Hloads. cbn [bind].
  assert (Hok : container_ok d "entry_data" = true).
  { unfold container_ok, path in *.
    destruct (lookup "entry_data" d) as [c |]; [| discriminate Hpath].
    destruct c; try discriminate Hpath. reflexivity. }
  rewrite (has_path_dict _ _ _ Hok), Hpath. cbn [bind].
  rewrite (at_path_dict _ _ _ _ Hpath). reflexivity.
Qed.

(** The loop passes over the skipped nodes. *)
Lemma scan_scripts_skipped :
  forall skipped rest,
    Forall (fun s => script_user json_loads s = Ok None) skipped ->
    scan_scripts json_loads (skipped ++ rest)%list = scan_scripts json_loads rest.
Proof.
  intros skipped rest H. induction H as [| s skipped Hs _ IH].
  - reflexivity.
  - cbn [app scan_scripts]. rewrite Hs. cbn [bind]. exact IH.
Qed.

(** The loop ends at the first node that is not skipped. *)
Lemma scan_scripts_decisive :
  forall s rest,
    skips (script_user json_loads s) = false ->
    scan_scripts json_loads (s :: rest) = script_user json_loads s.
Proof.
  intros s rest H. cbn [scan_scripts].
  destruct (script_user json_loads s) as [[user_data |] | e];
    [reflexivity | discriminate H | reflexivity].
Qed.

End ScriptScan.

(** C2, as stated, fails: the script of this page has a literal that is not
    JSON; the decoder's exception ends the whole strategy with a failure,
    and the meta tags of the page, which hold a record, are not tried. *)
Lemma C2_malformed_json_ends_the_strategy :
  script_literal (script "window._sharedData = {oops};") = Some "{oops}"
  /\ get_user_data_requests rejected (fun _ => Response 200 broken_script_page) "janedoe"
       = Failure (Parsing_failed JSONDecodeError)
  /\ exists meta_data,
       meta_outcome broken_script_page = Success "MetaTags" meta_data.
Proof.
  split; [vm_compute; reflexivity |].
  split; [vm_compute; reflexivity |].
  eexists. vm_compute. reflexivity.
Qed.

(** C2, amended: the script nodes whose scan ends without a user object and
    without an exception are skipped and scanning continues; when every node
    is skipped the strategy goes on to the meta tags of the same page.  The
    first node that is not skipped decides: its user object is normalized
    and returned, and an exception raised on it ends the strategy with the
    failure [Parsing failed], without a look at the remaining nodes or at
    the meta tags. *)
Theorem C2_first_unskipped_script_decides :
  forall (json_loads : string -> result value)
         (session_get : string -> fetched soup) (username : string)
         (page : soup) (skipped rest : list tag),
    session_get (base_url ++ "/" ++ username ++ "/") = Response 200 page ->
    find_all "script" "type" "text/javascript" page = (skipped ++ rest)%list ->
    Forall (fun s => script_user json_loads s = Ok None) skipped ->
    match rest with
    | [] => true
    | s :: _ => negb (skips (script_user json_loads s))
    end = true ->
    get_user_data_requests json_loads session_get username =
      match rest with
      | [] => meta_outcome page
      | s :: _ => decided (script_user json_loads s)
      end.
Proof.
  intros json_loads session_get username page skipped rest Hget Hscripts Hskipped Hrest.
  unfold get_user_data_requests. rewrite Hget.
  change (negb (200 =? 200)) with false. cbv iota.
  unfold page_body.
  rewrite Hscripts, (scan_scripts_skipped json_loads skipped rest Hskipped).
  destruct rest as [| s rest'].
  - cbn [scan_scripts bind]. unfold meta_outcome.
    destruct (_extract_meta_data page); reflexivity.
  - apply negb_true_iff in Hrest.
    rewrite (scan_scripts_decisive json_loads s rest' Hrest).
    destruct (script_user json_loads s) as [[user_data |] | e];
      [reflexivity | discriminate Hrest | reflexivity].
Qed.

Lemma C2_witness :
  get_user_data_requests rejected (fun _ => Response 200 two_scripts_page) "janedoe"
    = Failure (Parsing_failed JSONDecodeError)
  /\ get_user_data_requests rejected
       (fun _ => Response 200 (script "var x = 1;" :: jane_doe_page)) "janedoe"
     = meta_outcome (script "var x = 1;" :: jane_doe_page).
Proof.
  split.
  - apply (C2_first_unskipped_script_decides rejected
             (fun _ => Response 200 two_scripts_page) "janedoe" two_scripts_page
             [script "var x = 1;"] [script "window._sharedData = {oops};"]).
    + reflexivity.
    + reflexivity.
    + repeat constructor.
    + vm_compute. reflexivity.
  - apply (C2_first_unskipped_script_decides rejected
             (fun _ => Response 200 (script "var x = 1;" :: jane_doe_page)) "janedoe"
             (script "var x = 1;" :: jane_doe_page)
             [script "var x = 1;"] []).
    + reflexivity.
    + reflexivity.
    + repeat constructor.
    + reflexivity.
Defined.

(** *** Count parser: strings *)

Lemma last_is_cons :
  forall P c s, last_is P s = true -> last_is P (String c s) = true.
Proof.
  intros P c s H. destruct s; [discriminate H | exact H].
Qed.

Lemma last_is_snoc :
  forall P t c, last_is P (t ++ String c "") = P c.
Proof.
  intros P t c. induction t as [| a t IH]; [reflexivity |].
  cbn [append last_is]. rewrite IH.
  destruct (t ++ String c "") eqn:E; [| reflexivity].
  destruct t; discriminate E.
Qed.

(** A string with a last character is a string followed by it. *)
Lemma last_is_inv :
  forall P s, last_is P s = true -> exists t c, s = t ++ String c "" /\ P c = true.
Proof.
  intros P s. induction s as [| a s IH]; intro H; [discriminate H |].
  destruct s as [| b s'].
  - exists "", a. split; [reflexivity | exact H].
  - destruct (IH H) as [t [c [E Hc]]]. exists (String a t), c.
    split; [cbn [append]; rewrite <- E; reflexivity | exact Hc].
Qed.

Lemma length_snoc :
  forall t c, String.length (t ++ String c "") = S (String.length t).
Proof.
  intros t c. induction t as [| a t IH]; [reflexivity |].
  cbn [append String.length]. rewrite IH. reflexivity.
Qed.

Lemma drop_length_snoc :
  forall t c, drop (String.length t) (t ++ String c "") = String c "".
Proof.
  intros t c. induction t as [| a t IH]; [reflexivity | exact IH].
Qed.

Lemma endswith_snoc :
  forall t c k, endswith (t ++ String c "") (String k "") = Ascii.eqb c k.
Proof.
  intros t c k. unfold endswith. rewrite length_snoc.
  cbn [String.length Nat.leb Nat.sub]. rewrite Nat.sub_0_r, drop_length_snoc.
  cbn [String.eqb]. destruct (Ascii.eqb c k); reflexivity.
Qed.

Lemma drop_last_snoc :
  forall t c, drop_last (t ++ String c "") = t.
Proof.
  intros t c. induction t as [| a t IH]; [reflexivity |].
  cbn [append drop_last]. rewrite IH.
  destruct (t ++ String c "") eqn:E; [| reflexivity].
  destruct t; discriminate E.
Qed.

(** Commas are removed one by one. *)
Lemma replace_comma_cons :
  forall c s,
    replace "," "" (String c s) =
      if Ascii.eqb "," c then replace "," "" s else String c (replace "," "" s).
Proof.
  intros c s. unfold replace. cbn [is_empty replace_from startswith].
  destruct (Ascii.eqb "," c); reflexivity.
Qed.

Lemma replace_comma_nonempty :
  forall s t c, replace "," "" s = t ++ String c "" -> is_empty s = false.
Proof.
  intros s t c H. destruct s; [| reflexivity].
  destruct t; discriminate H.
Qed.

(** *** Count parser: what [float] refuses *)

(** A character that is never read is a lower-case [k], [m], [b] or the
    mark: no digit, no space, no sign, no point, no underscore, no letter of
    an exponent, of [infinity] or of [nan]. *)
Lemma never_read_cases :
  forall c, never_read c = true -> c = "k"%char \/ c = "m"%char \/ c = "b"%char \/ c = "?"%char.
Proof.
  intros c H. unfold never_read, lower_suffix in H.
  repeat (apply orb_true_iff in H; destruct H as [H | H]);
    apply Ascii.eqb_eq in H; auto.
Qed.

Lemma never_read_not_digit : forall c, never_read c = true -> is_digit c = false.
Proof. intros c H. destruct (never_read_cases c H) as [-> | [-> | [-> | ->]]]; reflexivity. Qed.

Lemma never_read_not_space : forall c, never_read c = true -> Py_ISSPACE c = false.
Proof. intros c H. destruct (never_read_cases c H) as [-> | [-> | [-> | ->]]]; reflexivity. Qed.

Lemma never_read_ascii : forall c, never_read c = true -> (code c <? 127) = true.
Proof. intros c H. destruct (never_read_cases c H) as [-> | [-> | [-> | ->]]]; reflexivity. Qed.

Lemma never_read_lower : forall c, never_read c = true -> lower c = c.
Proof. intros c H. destruct (never_read_cases c H) as [-> | [-> | [-> | ->]]]; reflexivity. Qed.

(** The tail of a string whose first character can be read still ends with
    a character that is never read. *)
Lemma last_is_tail :
  forall c s,
    last_is never_read (String c s) = true ->
    never_read c = false ->
    last_is never_read s = true.
Proof.
  intros c s H Hc. destruct s; [| exact H].
  cbn [last_is] in H. congruence.
Qed.

Lemma transform_chars_last :
  forall s,
    last_is never_read s = true ->
    last_is never_read (transform_chars s) = true.
Proof.
  induction s as [| c s IH]; intro H; [discriminate H |].
  cbn [transform_chars].
  destruct (code c <? 127) eqn:Hc.
  - destruct s as [| d s'].
    + exact H.
    + apply last_is_cons. apply IH. exact H.
  - destruct (isspace c).
    + apply last_is_cons. apply IH.
      apply (last_is_tail c); [exact H |].
      destruct (never_read c) eqn:Hn; [| reflexivity].
      rewrite (never_read_ascii c Hn) in Hc. discriminate Hc.
    + reflexivity.
Qed.

Lemma transform_last :
  forall s,
    last_is never_read s = true ->
    last_is never_read (transform_decimal_and_space s) = true.
Proof.
  intros s H. unfold transform_decimal_and_space.
  destruct (is_ascii s); [exact H | apply transform_chars_last; exact H].
Qed.

Lemma strip_underscores_last :
  forall s prev s',
    strip_underscores prev s = Some s' ->
    last_is never_read s = true ->
    last_is never_read s' = true.
Proof.
  induction s as [| c s IH]; intros prev s' Hs H; [discriminate H |].
  cbn [strip_underscores] in Hs.
  destruct (Ascii.eqb c "_") eqn:Hc.
  - apply Ascii.eqb_eq in Hc. subst c.
    destruct (is_digit prev); [| discriminate Hs].
    apply (IH _ _ Hs). apply (last_is_tail "_"); [exact H | reflexivity].
  - destruct (Ascii.eqb prev "_" && negb (is_digit c)); [discriminate Hs |].
    destruct (strip_underscores c s) as [t |] eqn:Ht; [| discriminate Hs].
    cbn [option_map] in Hs. injection Hs as <-.
    destruct s as [| d s0].
    + cbn [strip_underscores] in Ht. rewrite Hc in Ht. injection Ht as <-. exact H.
    + apply last_is_cons. apply (IH _ _ Ht). exact H.
Qed.

Lemma lstrip_last :
  forall s, last_is never_read s = true -> last_is never_read (lstrip s) = true.
Proof.
  induction s as [| c s IH]; intro H; [discriminate H |].
  cbn [lstrip]. destruct (Py_ISSPACE c) eqn:Hc; [| exact H].
  apply IH. apply (last_is_tail c); [exact H |].
  destruct (never_read c) eqn:Hn; [| reflexivity].
  rewrite (never_read_not_space c Hn) in Hc. discriminate Hc.
Qed.

Lemma rstrip1_last :
  forall s, last_is never_read s = true -> rstrip1 s = s.
Proof.
  induction s as [| c s IH]; intro H; [reflexivity |].
  destruct s as [| d s0]; [reflexivity |].
  assert (Ht : last_is never_read (String d s0) = true) by exact H.
  change (rstrip1 (String c (String d s0))) with
    (match rstrip1 (String d s0) with
     | String e EmptyString =>
         if Py_ISSPACE e then String c EmptyString else String c (String e EmptyString)
     | r => String c r
     end).
  rewrite (IH Ht).
  destruct s0 as [| e s1]; [| reflexivity].
  cbn [last_is] in Ht. rewrite (never_read_not_space d Ht). reflexivity.
Qed.

Lemma read_sign_last :
  forall s, last_is never_read s = true -> last_is never_read (snd (read_sign s)) = true.
Proof.
  intros s H. unfold read_sign.
  destruct s as [| c t]; [discriminate H |].
  destruct (Ascii.eqb c "-") eqn:Hm.
  - apply Ascii.eqb_eq in Hm. subst c. cbn [snd].
    apply (last_is_tail "-"); [exact H | reflexivity].
  - destruct (Ascii.eqb c "+") eqn:Hp.
    + apply Ascii.eqb_eq in Hp. subst c. cbn [snd].
      apply (last_is_tail "+"); [exact H | reflexivity].
    + replace (match c with
               | "-"%char => (true, t)
               | "+"%char => (false, t)
               | _ => (false, String c t)
               end) with (false, String c t); [exact H |].
      apply Ascii.eqb_neq in Hm, Hp.
      destruct c as [[] [] [] [] [] [] [] []]; try reflexivity; congruence.
Qed.

Lemma read_digits_last :
  forall s acc n,
    last_is never_read s = true ->
    last_is never_read (snd (read_digits acc n s)) = true.
Proof.
  induction s as [| c s IH]; intros acc n H; [discriminate H |].
  cbn [read_digits]. destruct (is_digit c) eqn:Hc; [| exact H].
  apply IH. apply (last_is_tail c); [exact H |].
  destruct (never_read c) eqn:Hn; [| reflexivity].
  rewrite (never_read_not_digit c Hn) in Hc. discriminate Hc.
Qed.

Lemma read_exponent_last :
  forall s,
    last_is never_read s = true ->
    last_is never_read (snd (read_exponent s)) = true.
Proof.
  intros s H. unfold read_exponent.
  destruct s as [| c t]; [discriminate H |].
  destruct (Ascii.eqb (lower c) "e") eqn:Hc; [| exact H].
  assert (Ht : last_is never_read t = true).
  { apply (last_is_tail c); [exact H |].
    destruct (never_read c) eqn:Hn; [| reflexivity].
    rewrite (never_read_lower c Hn) in Hc. apply Ascii.eqb_eq in Hc. subst c.
    discriminate Hn. }
  pose proof (read_sign_last t Ht) as Hs.
  destruct (read_sign t) as [eneg t1]. cbn [snd] in Hs.
  pose proof (read_digits_last t1 0 0 Hs) as Hd.
  destruct (read_digits 0 0 t1) as [[v n] t2]. cbn [snd] in Hd.
  destruct (n =? 0); [exact H | exact Hd].
Qed.

(** [strtod] leaves a character that is never read unread. *)
Lemma strtod_last :
  forall s x rest,
    strtod s = Some (x, rest) ->
    last_is never_read s = true ->
    last_is never_read rest = true.
Proof.
  intros s x rest Hs H. unfold strtod in Hs.
  pose proof (read_sign_last s H) as H1.
  destruct (read_sign s) as [neg s1]. cbn [snd] in H1.
  pose proof (read_digits_last s1 0 0 H1) as H2.
  destruct (read_digits 0 0 s1) as [[m1 n1] s2]. cbn [snd] in H2.
  assert (H3 : last_is never_read
                 (snd match s2 with
                      | String "." t => read_digits m1 0 t
                      | _ => (m1, 0, s2)
                      end) = true).
  { destruct s2 as [| c t]; [discriminate H2 |].
    destruct (Ascii.eqb c ".") eqn:Hc.
    - apply Ascii.eqb_eq in Hc. subst c.
      apply read_digits_last. apply (last_is_tail "."); [exact H2 | reflexivity].
    - replace (match c with
               | "."%char => read_digits m1 0 t
               | _ => (m1, 0, String c t)
               end) with (m1, 0, String c t); [exact H2 |].
      apply Ascii.eqb_neq in Hc.
      destruct c as [[] [] [] [] [] [] [] []]; try reflexivity; congruence. }
  destruct (match s2 with
            | String "." t => read_digits m1 0 t
            | _ => (m1, 0, s2)
            end) as [[m2 n2] s3]. cbn [snd] in H3.
  destruct (n1 + n2 =? 0); [discriminate Hs |].
  pose proof (read_exponent_last s3 H3) as H4.
  destruct (read_exponent s3) as [e s4]. cbn [snd] in H4.
  injection Hs as _ <-. exact H4.
Qed.

Lemma ci_prefix_last :
  forall p s s',
    ci_prefix s p = Some s' ->
    forallb (fun a => negb (never_read a)) (list_ascii_of_string p) = true ->
    last_is never_read s = true ->
    last_is never_read s' = true.
Proof.
  induction p as [| a p IH]; intros s s' Hs Hp H.
  - cbn [ci_prefix] in Hs. injection Hs as <-. exact H.
  - cbn [ci_prefix] in Hs. destruct s as [| b t]; [discriminate Hs |].
    cbn [list_ascii_of_string forallb] in Hp.
    apply andb_true_iff in Hp. destruct Hp as [Ha Hp].
    destruct (Ascii.eqb (lower b) a) eqn:Hb; [| discriminate Hs].
    apply (IH _ _ Hs Hp). apply (last_is_tail b); [exact H |].
    destruct (never_read b) eqn:Hn; [| reflexivity].
    rewrite (never_read_lower b Hn) in Hb. apply Ascii.eqb_eq in Hb. subst a.
    rewrite Hn in Ha. discriminate Ha.
Qed.

Lemma parse_inf_or_nan_last :
  forall s x rest,
    parse_inf_or_nan s = Some (x, rest) ->
    last_is never_read s = true ->
    last_is never_read rest = true.
Proof.
  intros s x rest Hs H. unfold parse_inf_or_nan in Hs.
  pose proof (read_sign_last s H) as H1.
  destruct (read_sign s) as [neg s1]. cbn [snd] in H1.
  destruct (ci_prefix s1 "inf") as [s2 |] eqn:Hinf.
  - pose proof (ci_prefix_last _ _ _ Hinf eq_refl H1) as H2.
    destruct (ci_prefix s2 "inity") as [s3 |] eqn:Hinity.
    + injection Hs as _ <-. exact (ci_prefix_last _ _ _ Hinity eq_refl H2).
    + injection Hs as _ <-. exact H2.
  - destruct (ci_prefix s1 "nan") as [s2 |] eqn:Hnan; [| discriminate Hs].
    injection Hs as _ <-. exact (ci_prefix_last _ _ _ Hnan eq_refl H1).
Qed.

(** [float] refuses a string whose last character is never read. *)
Lemma float_refuses :
  forall s, last_is never_read s = true -> float s = Raise ValueError.
Proof.
  intros s H. unfold float.
  pose proof (transform_last s H) as H1.
  destruct (strip_underscores zero (transform_decimal_and_space s)) as [s' |] eqn:Hs;
    [| reflexivity].
  pose proof (strip_underscores_last _ _ _ Hs H1) as H2.
  unfold float_from_string_inner.
  pose proof (lstrip_last s' H2) as H3.
  destruct (lstrip s') as [| c t] eqn:Hl; [discriminate H3 |].
  cbn [is_empty]. rewrite (rstrip1_last _ H3).
  unfold ascii_strtod.
  destruct (strtod (String c t)) as [[x rest] |] eqn:Hd.
  - pose proof (strtod_last _ _ _ Hd H3) as H4.
    destruct rest; [discriminate H4 | reflexivity].
  - destruct (parse_inf_or_nan (String c t)) as [[x rest] |] eqn:Hp; [| reflexivity].
    pose proof (parse_inf_or_nan_last _ _ _ Hp H3) as H4.
    destruct rest; [discriminate H4 | reflexivity].
Qed.

Lemma scale_refused :
  forall s m, last_is never_read s = true -> scale s m = Ok 0.
Proof.
  intros s m H. unfold scale. rewrite (float_refuses s H). reflexivity.
Qed.

(** C4, as stated, fails: the suffix test is case-sensitive, so a
    lower-case suffix stays in the remainder, which is then no number. *)
Lemma C4_lower_case_suffix_gives_zero :
  _convert_count (Some "1.2m") = Ok 0
  /\ _convert_count (Some "3k") = Ok 0
  /\ _convert_count (Some "2b") = Ok 0
  /\ _convert_count (Some "1.2M") = Ok 1200000
  /\ _convert_count (Some "3K") = Ok 3000
  /\ _convert_count (Some "2B") = Ok 2000000000.
Proof.
  repeat split; vm_compute; reflexivity.
Qed.

(** C4, amended: the last character of the count string, commas removed,
    selects the multiplier: an upper-case [K], [M] or [B] is cut off and the
    remainder is scaled by 1,000, 1,000,000 or 1,000,000,000; a lower-case
    [k], [m] or [b] is no suffix and the result is 0; any other string is
    scaled by 1 whole. *)
Theorem C4_upper_case_suffix_scales :
  forall (s t : string) (c : ascii),
    replace "," "" s = t ++ String c "" ->
    _convert_count (Some s) =
      match suffix_multiplier c with
      | Some multiplier => scale t multiplier
      | None => if lower_suffix c then Ok 0 else scale (t ++ String c "") 1
      end.
Proof.
  intros s t c H. unfold _convert_count.
  rewrite (replace_comma_nonempty s t c H), H.
  rewrite !endswith_snoc, drop_last_snoc. unfold suffix_multiplier.
  destruct (Ascii.eqb c "K"); [reflexivity |].
  destruct (Ascii.eqb c "M"); [reflexivity |].
  destruct (Ascii.eqb c "B"); [reflexivity |].
  destruct (lower_suffix c) eqn:Hc; [| reflexivity].
  apply scale_refused. rewrite last_is_snoc.
  unfold never_read. rewrite Hc. reflexivity.
Qed.

Lemma C4_witness :
  _convert_count (Some "12,5K") = scale "125" 1000
  /\ _convert_count (Some "1.2m") = Ok 0
  /\ _convert_count (Some "2,345") = scale "2345" 1.
Proof.
  split; [| split].
  - apply (C4_upper_case_suffix_scales "12,5K" "125" "K"). reflexivity.
  - apply (C4_upper_case_suffix_scales "1.2m" "1.2" "m"). reflexivity.
  - apply (C4_upper_case_suffix_scales "2,345" "234" "5"). reflexivity.
Defined.

(** *** Count parser: degraded and exact results *)

(** [None] and the empty string give 0. *)
Lemma convert_count_none_or_empty :
  _convert_count None = Ok 0 /\ _convert_count (Some "") = Ok 0.
Proof.
  split; reflexivity.
Qed.

(** A string of commas only gives 0: nothing is left to read. *)
Lemma convert_count_only_commas :
  forall s, replace "," "" s = "" -> _convert_count (Some s) = Ok 0.
Proof.
  intros s H. unfold _convert_count. rewrite H.
  destruct (is_empty s); reflexivity.
Qed.

(** X2: a count string whose remainder, commas removed and an upper-case
    suffix cut off, is refused by [float] gives 0. *)
Theorem convert_count_refused_remainder :
  forall (s t : string) (c : ascii),
    replace "," "" s = t ++ String c "" ->
    float (match suffix_multiplier c with
           | Some _ => t
           | None => t ++ String c ""
           end) = Raise ValueError ->
    _convert_count (Some s) = Ok 0.
Proof.
  intros s t c H Hfloat. unfold _convert_count.
  rewrite (replace_comma_nonempty s t c H), H.
  rewrite !endswith_snoc, drop_last_snoc. unfold suffix_multiplier in Hfloat.
  destruct (Ascii.eqb c "K"); [unfold scale; rewrite Hfloat; reflexivity |].
  destruct (Ascii.eqb c "M"); [unfold scale; rewrite Hfloat; reflexivity |].
  destruct (Ascii.eqb c "B"); [unfold scale; rewrite Hfloat; reflexivity |].
  unfold scale. rewrite Hfloat. reflexivity.
Qed.

(** The values the specification lists. *)
Lemma convert_count_listed_values :
  _convert_count (Some "1.2M") = Ok 1200000
  /\ _convert_count (Some "500") = Ok 500
  /\ _convert_count (Some "2,345") = Ok 2345
  /\ _convert_count (Some "") = Ok 0
  /\ _convert_count (Some "abc") = Ok 0.
Proof.
  repeat split; vm_compute; reflexivity.
Qed.

(** The product is truncated toward zero, after it was rounded as a
    [float]: ["1.001K"] gives 1000, and ["-1.5K"] gives -1500. *)
Lemma convert_count_truncates :
  _convert_count (Some "1.001K") = Ok 1000
  /\ _convert_count (Some "0.0009K") = Ok 0
  /\ _convert_count (Some "-1.5K") = Ok (-1500)
  /\ _convert_count (Some "nan") = Ok 0.
Proof.
  repeat split; vm_compute; reflexivity.
Qed.

(** C5: a remainder that [float] reads as an infinity is not turned into
    0: [int] raises [OverflowError], which [except ValueError] lets
    through.  So it is for ["inf"], and for a count of 310 digits. *)
Theorem C5_infinite_remainder_raises :
  _convert_count (Some "inf") = Raise OverflowError
  /\ _convert_count (Some "Infinity") = Raise OverflowError
  /\ _convert_count (Some huge_count) = Raise OverflowError
  /\ _convert_count (Some "1e308K") = Raise OverflowError.
Proof.
  repeat split; vm_compute; reflexivity.
Qed.

(** Through the meta tags the exception is caught one level up: a
    description with such a count loses the whole record. *)
Lemma huge_count_loses_the_record :
  _extract_meta_data
    [ meta "og:title" "Jane Doe (@janedoe)";
      meta "og:description" (huge_count ++ " Followers") ] = None.
Proof.
  vm_compute. reflexivity.
Qed.

(** *** Count parser: integers are exact below [2 ^ 53] *)

(** The digits of the standard library's [float] specification are those
    of [Z.log2]. *)
Lemma digits2_pos_size : forall p, digits2_pos p = Pos.size p.
Proof. induction p; cbn; congruence. Qed.

Lemma Zdigits2_log2 : forall k, 0 < k -> Zdigits2 k = Z.log2 k + 1.
Proof.
  intros k Hk. destruct k as [| p | p]; try lia.
  cbn [Zdigits2]. rewrite digits2_pos_size.
  destruct p; cbn [Pos.size Z.log2]; lia.
Qed.

Lemma iter_pos_iter : forall (A : Type) (f : A -> A) p x, iter_pos f p x = Pos.iter f x p.
Proof.
  intros A f. induction p as [p IH | p IH |]; intro x; cbn [iter_pos Pos.iter].
  - rewrite !IH. rewrite <- Pos.iter_swap. rewrite <- Pos.iter_swap. reflexivity.
  - rewrite !IH. reflexivity.
  - reflexivity.
Qed.

Lemma shr_1_even : forall z, 0 < z ->
  shr_1 {| shr_m := 2 * z; shr_r := false; shr_s := false |} = {| shr_m := z; shr_r := false; shr_s := false |}.
Proof. intros z Hz. destruct z; try lia. reflexivity. Qed.

Lemma iter_shr_1_exact : forall p z, 0 < z ->
  iter_pos shr_1 p {| shr_m := z * 2 ^ Zpos p; shr_r := false; shr_s := false |}
  = {| shr_m := z; shr_r := false; shr_s := false |}.
Proof.
  intros p z Hz. rewrite iter_pos_iter. revert z Hz.
  induction p as [| p IH] using Pos.peano_ind; intros z Hz.
  - cbn [Pos.iter]. replace (z * 2 ^ 1) with (2 * z) by lia. apply shr_1_even; lia.
  - rewrite Pos.iter_succ.
    replace (z * 2 ^ Zpos (Pos.succ p)) with ((2 * z) * 2 ^ Zpos p).
    + rewrite IH by lia. apply shr_1_even; lia.
    + rewrite Pos2Z.inj_succ, Z.pow_succ_r by lia. lia.
Qed.

Lemma bits_bounds : forall k, 0 < k < 2 ^ 53 -> 1 <= bits k <= 53.
Proof.
  intros k Hk. unfold bits. pose proof (Z.log2_nonneg k).
  assert (Z.log2 k < 53) by (apply Z.log2_lt_pow2; lia). lia.
Qed.

Lemma fexp_bits : forall d, 1 <= d <= 53 -> fexp prec emax d = d - 53.
Proof. intros d Hd. unfold fexp, SpecFloat.emin, prec, emax. lia. Qed.

Lemma shr_fexp_exact :
  forall k j, 0 < k < 2 ^ 53 -> 0 <= j -> 53 <= bits k + j ->
    shr_fexp prec emax (k * 2 ^ j) (- j) loc_Exact
    = ({| shr_m := k * 2 ^ (53 - bits k); shr_r := false; shr_s := false |}, bits k - 53).
Proof.
  intros k j Hk Hj Hd. pose proof (bits_bounds k Hk) as Hb.
  unfold shr_fexp.
  rewrite Zdigits2_log2 by (apply Z.mul_pos_pos; [lia | apply Z.pow_pos_nonneg; lia]).
  rewrite Z.log2_mul_pow2 by lia.
  replace (j + Z.log2 k + 1 + - j) with (bits k) by (unfold bits; lia).
  rewrite fexp_bits by exact Hb.
  cbn [shr_record_of_loc]. unfold shr.
  destruct (bits k - 53 - - j) as [| p | p] eqn:E.
  - f_equal; [| lia]. f_equal. f_equal. f_equal. lia.
  - f_equal; [| lia].
    replace (k * 2 ^ j) with ((k * 2 ^ (53 - bits k)) * 2 ^ Zpos p).
    + apply iter_shr_1_exact. apply Z.mul_pos_pos; [lia | apply Z.pow_pos_nonneg; lia].
    + rewrite <- Z.mul_assoc, <- Z.pow_add_r by lia. f_equal. f_equal. lia.
  - lia.
Qed.

Lemma round_exact :
  forall k j, 0 < k < 2 ^ 53 -> 0 <= j -> 53 <= bits k + j ->
    binary_round_aux prec emax false (k * 2 ^ j) (- j) loc_Exact = float_exact k.
Proof.
  intros k j Hk Hj Hd. pose proof (bits_bounds k Hk) as Hb.
  unfold binary_round_aux. rewrite (shr_fexp_exact k j Hk Hj Hd).
  cbn [shr_m loc_of_shr_record round_nearest_even].
  replace (bits k - 53) with (- (53 - bits k)) at 1 by lia.
  rewrite (shr_fexp_exact k (53 - bits k) Hk) by lia.
  cbn [shr_m]. unfold float_exact.
  assert (0 < k * 2 ^ (53 - bits k)) by (apply Z.mul_pos_pos; [lia | apply Z.pow_pos_nonneg; lia]).
  destruct (k * 2 ^ (53 - bits k)) as [| m | m] eqn:E; try lia.
  replace (bits k - 53 <=? emax - prec) with true by (symmetry; apply Z.leb_le; unfold emax, prec; lia).
  reflexivity.
Qed.

Lemma int_of_exact : forall k, 0 < k < 2 ^ 53 -> int_of_float (float_exact k) = Ok k.
Proof.
  intros k Hk. pose proof (bits_bounds k Hk) as Hb.
  unfold float_exact, int_of_float. cbn [cond_Zopp]. f_equal.
  assert (0 < k * 2 ^ (53 - bits k)) by (apply Z.mul_pos_pos; [lia | apply Z.pow_pos_nonneg; lia]).
  rewrite Z2Pos.id by lia.
  replace (bits k - 53) with (- (53 - bits k)) by lia.
  rewrite Z.shiftl_opp_r, Z.shiftr_div_pow2 by lia.
  apply Z.div_mul. apply Z.pow_nonzero; lia.
Qed.

Lemma div_eucl_1 : forall a, Z.div_eucl a 1 = (a, 0).
Proof.
  intro a. pose proof (Z.div_1_r a) as Hq. pose proof (Z.mod_1_r a) as Hr.
  unfold Z.div, Z.modulo in *. destruct (Z.div_eucl a 1). cbn [fst snd] in *. congruence.
Qed.

Lemma float_of_decimal_exact :
  forall k, 0 < k < 2 ^ 53 -> float_of_decimal false k 0 = float_exact k.
Proof.
  intros k Hk. pose proof (bits_bounds k Hk) as Hb.
  unfold float_of_decimal.
  replace (k =? 0) with false by (symmetry; apply Z.eqb_neq; lia).
  cbn [Z.leb Z.compare Z.pow Z.opp]. rewrite Z.mul_1_r.
  unfold SFdiv_core_binary.
  rewrite (Zdigits2_log2 k) by lia. change (Zdigits2 1) with 1.
  replace (Z.log2 k + 1 + 0 - (1 + 0)) with (bits k - 1) by (unfold bits; lia).
  unfold fexp, SpecFloat.emin, prec, emax.
  replace (Z.min (Z.max (bits k - 1 - 53) (3 - 1024 - 53)) (0 - 0)) with (- (54 - bits k)) by lia.
  replace (0 - 0 - - (54 - bits k)) with (54 - bits k) by lia.
  remember (54 - bits k) as s eqn:Es.
  destruct s as [| p | p]; try lia.
  rewrite Z.shiftl_mul_pow2 by lia. rewrite div_eucl_1.
  change (new_location 1 0) with loc_Exact.
  apply (round_exact k (Zpos p)); lia.
Qed.

Lemma float_mul_exact :
  forall a b, 0 < a -> 0 < b -> a * b < 2 ^ 53 ->
    float_mul (float_exact a) (float_exact b) = float_exact (a * b).
Proof.
  intros a b Ha Hb Hab.
  assert (Ha' : 0 < a < 2 ^ 53) by nia.
  assert (Hb' : 0 < b < 2 ^ 53) by nia.
  pose proof (bits_bounds a Ha') as Ba. pose proof (bits_bounds b Hb') as Bb.
  assert (Hab' : 0 < a * b < 2 ^ 53) by nia.
  pose proof (bits_bounds (a * b) Hab') as Bab.
  assert (Hlog : bits a + bits b - 1 <= bits (a * b)).
  { unfold bits. pose proof (Z.log2_mul_below a b Ha Hb). lia. }
  unfold float_mul, float_exact, SFmul. cbn [xorb].
  assert (Pa : 0 < a * 2 ^ (53 - bits a)) by (apply Z.mul_pos_pos; [lia | apply Z.pow_pos_nonneg; lia]).
  assert (Pb : 0 < b * 2 ^ (53 - bits b)) by (apply Z.mul_pos_pos; [lia | apply Z.pow_pos_nonneg; lia]).
  rewrite Pos2Z.inj_mul, !Z2Pos.id by lia.
  replace (a * 2 ^ (53 - bits a) * (b * 2 ^ (53 - bits b)))
    with ((a * b) * 2 ^ (106 - bits a - bits b)).
  - replace (bits a - 53 + (bits b - 53)) with (- (106 - bits a - bits b)) by lia.
    apply (round_exact (a * b) (106 - bits a - bits b)); lia.
  - replace (106 - bits a - bits b) with ((53 - bits a) + (53 - bits b)) by lia.
    rewrite Z.pow_add_r by lia. ring.
Qed.

Lemma multipliers_exact :
  float_of_int 1 = float_exact 1 /\ float_of_int 1000 = float_exact 1000
  /\ float_of_int 1000000 = float_exact 1000000 /\ float_of_int 1000000000 = float_exact 1000000000.
Proof. repeat split; vm_compute; reflexivity. Qed.

Lemma digit_facts :
  forall c, is_digit c = true ->
    (code c <? 128) = true /\ Ascii.eqb c "_" = false /\ Py_ISSPACE c = false
    /\ read_sign (String c "") = (false, String c "")
    /\ suffix_multiplier c = None /\ 0 <= digit_val c <= 9.
Proof.
  intros c H.
  destruct c as [[] [] [] [] [] [] [] []]; try discriminate H;
    (repeat split; try reflexivity; cbv; discriminate).
Qed.

Lemma read_sign_digit :
  forall c t, is_digit c = true -> read_sign (String c t) = (false, String c t).
Proof.
  intros c t H.
  destruct c as [[] [] [] [] [] [] [] []]; try discriminate H; reflexivity.
Qed.

Lemma all_digits_ascii : forall s, all_digits s = true -> is_ascii s = true.
Proof.
  induction s as [| c s IH]; intro H; [reflexivity |].
  cbn [all_digits] in H. apply andb_true_iff in H. destruct H as [Hc Hs].
  cbn [is_ascii]. destruct (digit_facts c Hc) as [-> _]. exact (IH Hs).
Qed.

Lemma all_digits_no_underscore :
  forall s prev,
    all_digits s = true ->
    (is_empty s = true -> Ascii.eqb prev "_" = false) ->
    strip_underscores prev s = Some s.
Proof.
  induction s as [| c s IH]; intros prev H Hprev.
  - cbn [strip_underscores]. rewrite (Hprev eq_refl). reflexivity.
  - cbn [all_digits] in H. apply andb_true_iff in H. destruct H as [Hc Hs].
    destruct (digit_facts c Hc) as [_ [Hu _]].
    cbn [strip_underscores]. rewrite Hu, Hc, andb_false_r.
    rewrite (IH c Hs (fun _ => Hu)). reflexivity.
Qed.

Lemma all_digits_rstrip1 : forall s, all_digits s = true -> rstrip1 s = s.
Proof.
  induction s as [| c s IH]; intro H; [reflexivity |].
  destruct s as [| d s0]; [reflexivity |].
  cbn [all_digits] in H. apply andb_true_iff in H. destruct H as [Hc Hs].
  change (rstrip1 (String c (String d s0))) with
    (match rstrip1 (String d s0) with
     | String e EmptyString =>
         if Py_ISSPACE e then String c EmptyString else String c (String e EmptyString)
     | r => String c r
     end).
  rewrite (IH Hs).
  destruct s0 as [| e s1]; [| reflexivity].
  cbn [all_digits] in Hs. apply andb_true_iff in Hs. destruct Hs as [Hd _].
  destruct (digit_facts d Hd) as [_ [_ [-> _]]]. reflexivity.
Qed.

Lemma read_digits_all :
  forall s acc n,
    all_digits s = true ->
    read_digits acc n s = (decimal acc s, n + Z.of_nat (String.length s), "").
Proof.
  induction s as [| c s IH]; intros acc n H.
  - cbn [read_digits decimal String.length]. f_equal. f_equal. cbn. lia.
  - cbn [all_digits] in H. apply andb_true_iff in H. destruct H as [Hc Hs].
    cbn [read_digits decimal]. rewrite Hc, (IH _ _ Hs).
    f_equal. f_equal. cbn [String.length]. lia.
Qed.

(** [float] on a run of digits is the rounding of its value. *)
Lemma float_of_digits :
  forall ds,
    all_digits ds = true -> is_empty ds = false ->
    float ds = Ok (float_of_decimal false (decimal 0 ds) 0).
Proof.
  intros ds H Hne. unfold float, transform_decimal_and_space.
  rewrite (all_digits_ascii ds H).
  rewrite (all_digits_no_underscore ds zero H) by (rewrite Hne; discriminate).
  unfold float_from_string_inner.
  destruct ds as [| c t]; [discriminate Hne |].
  assert (Hc : is_digit c = true).
  { cbn [all_digits] in H. apply andb_true_iff in H. exact (proj1 H). }
  destruct (digit_facts c Hc) as [_ [_ [Hsp _]]].
  cbn [lstrip]. rewrite Hsp. cbn [is_empty].
  rewrite (all_digits_rstrip1 _ H).
  unfold ascii_strtod, strtod.
  rewrite (read_sign_digit c t Hc), (read_digits_all _ 0 0 H).
  cbn [String.length].
  replace (0 + Z.of_nat (S (String.length t)) + 0 =? 0) with false
    by (symmetry; apply Z.eqb_neq; lia).
  cbn [read_exponent]. reflexivity.
Qed.

Lemma decimal_nonneg :
  forall s acc, all_digits s = true -> 0 <= acc -> 0 <= decimal acc s.
Proof.
  induction s as [| c s IH]; intros acc H Hacc; [exact Hacc |].
  cbn [all_digits] in H. apply andb_true_iff in H. destruct H as [Hc Hs].
  cbn [decimal]. apply (IH _ Hs).
  destruct (digit_facts c Hc) as [_ [_ [_ [_ [_ Hv]]]]]. lia.
Qed.

(** Scaling a run of digits is exact below [2 ^ 53]. *)
Lemma scale_digits :
  forall ds suffix m,
    In (suffix, m) suffixes ->
    all_digits ds = true -> is_empty ds = false ->
    decimal 0 ds * m < 2 ^ 53 ->
    scale ds m = Ok (decimal 0 ds * m).
Proof.
  intros ds suffix m Hm H Hne Hlt.
  unfold scale. rewrite (float_of_digits ds H Hne). cbn [bind].
  pose proof (decimal_nonneg ds 0 H (Z.le_refl 0)) as Hn.
  assert (Hmx : float_of_int m = float_exact m /\ 0 < m).
  { destruct multipliers_exact as [H1 [H2 [H3 H4]]].
    cbn [suffixes In] in Hm.
    destruct Hm as [E | [E | [E | [E | []]]]]; injection E as _ <-; split; try assumption; lia. }
  destruct Hmx as [Hmx Hmpos]. rewrite Hmx.
  destruct (Z.eq_dec (decimal 0 ds) 0) as [E | E].
  - rewrite E. reflexivity.
  - assert (0 < decimal 0 ds < 2 ^ 53) by nia.
    rewrite float_of_decimal_exact by assumption.
    rewrite float_mul_exact by lia.
    rewrite int_of_exact by lia. reflexivity.
Qed.

Lemma digit_is_no_suffix :
  forall c, is_digit c = true ->
    Ascii.eqb c "K" = false /\ Ascii.eqb c "M" = false /\ Ascii.eqb c "B" = false.
Proof.
  intros c H.
  destruct c as [[] [] [] [] [] [] [] []]; try discriminate H; repeat split.
Qed.

Lemma all_digits_last :
  forall ds,
    all_digits ds = true -> is_empty ds = false ->
    exists t c, ds = t ++ String c "" /\ is_digit c = true.
Proof.
  induction ds as [| a ds IH]; intros H Hne; [discriminate Hne |].
  cbn [all_digits] in H. apply andb_true_iff in H. destruct H as [Ha Hds].
  destruct ds as [| b ds'].
  - exists "", a. split; [reflexivity | exact Ha].
  - destruct (IH Hds eq_refl) as [t [c [E Hc]]].
    exists (String a t), c. split; [cbn [append]; rewrite <- E; reflexivity | exact Hc].
Qed.

Lemma append_empty_r : forall s : string, s ++ "" = s.
Proof.
  induction s as [| c s IH]; [reflexivity |]. cbn [append]. rewrite IH. reflexivity.
Qed.

(** A run of digits with one of the suffixes is cut at the suffix. *)
Lemma convert_count_digits_suffix :
  forall s ds suffix m,
    In (suffix, m) suffixes ->
    replace "," "" s = ds ++ suffix ->
    all_digits ds = true -> is_empty ds = false ->
    _convert_count (Some s) = scale ds m.
Proof.
  intros s ds suffix m Hm Hs H Hne.
  assert (Hs' : is_empty s = false).
  { destruct s; [| reflexivity]. destruct ds; [discriminate Hne | discriminate Hs]. }
  unfold _convert_count. rewrite Hs', Hs.
  cbn [suffixes In] in Hm.
  destruct Hm as [E | [E | [E | [E | []]]]]; injection E as <- <-.
  - rewrite append_empty_r.
    destruct (all_digits_last ds H Hne) as [t [c [-> Hc]]].
    destruct (digit_is_no_suffix c Hc) as [HK [HM HB]].
    rewrite !endswith_snoc, HK, HM, HB. reflexivity.
  - rewrite !endswith_snoc, drop_last_snoc. reflexivity.
  - rewrite !endswith_snoc, drop_last_snoc. reflexivity.
  - rewrite !endswith_snoc, drop_last_snoc. reflexivity.
Qed.

(** X1: an integer count, with commas or not, followed by nothing, [K],
    [M] or [B]: the result is the integer times the multiplier, exactly, as
    long as the product is below [2 ^ 53]. *)
Theorem convert_count_integer_exact :
  forall (s ds suffix : string) (m : Z),
    In (suffix, m) suffixes ->
    replace "," "" s = ds ++ suffix ->
    all_digits ds = true -> is_empty ds = false ->
    decimal 0 ds * m < 2 ^ 53 ->
    _convert_count (Some s) = Ok (decimal 0 ds * m).
Proof.
  intros s ds suffix m Hm Hs H Hne Hlt.
  rewrite (convert_count_digits_suffix s ds suffix m Hm Hs H Hne).
  exact (scale_digits ds suffix m Hm H Hne Hlt).
Qed.

Lemma convert_count_integer_exact_witness :
  _convert_count (Some "12,345K") = Ok (12345 * 1000)
  /\ _convert_count (Some "9,007,199,254,740,991") = Ok (9007199254740991 * 1).
Proof.
  split.
  - apply (convert_count_integer_exact "12,345K" "12345" "K" 1000).
    + cbn; tauto.
    + reflexivity.
    + reflexivity.
    + reflexivity.
    + reflexivity.
  - apply (convert_count_integer_exact "9,007,199,254,740,991" "9007199254740991" "" 1).
    + cbn; tauto.
    + reflexivity.
    + reflexivity.
    + reflexivity.
    + reflexivity.
Defined.

Lemma convert_count_refused_remainder_witness :
  _convert_count (Some "abc") = Ok 0
  /\ _convert_count (Some "1.2.3K") = Ok 0
  /\ _convert_count (Some "12,5x") = Ok 0.
Proof.
  split; [| split].
  - apply (convert_count_refused_remainder "abc" "ab" "c"); reflexivity.
  - apply (convert_count_refused_remainder "1.2.3K" "1.2.3" "K"); reflexivity.
  - apply (convert_count_refused_remainder "12,5x" "125" "x"); reflexivity.
Defined.

(** *** Count parser: exceptions and signs *)

(** [float] raises nothing but [ValueError]. *)
Lemma float_raises_ValueError :
  forall s e, float s = Raise e -> e = ValueError.
Proof.
  intros s e H. unfold float in H.
  destruct (strip_underscores zero (transform_decimal_and_space s)) as [s' |];
    [| congruence].
  unfold float_from_string_inner in H.
  destruct (is_empty (lstrip s')); [congruence |].
  destruct (ascii_strtod (rstrip1 (lstrip s'))) as [[x rest] |]; [| congruence].
  destruct rest; congruence.
Qed.

Lemma scale_raises_OverflowError :
  forall s m e, scale s m = Raise e -> e = OverflowError.
Proof.
  intros s m e H. unfold scale in H.
  destruct (float s) as [x | e'] eqn:Hf; cbn [bind try_except] in H.
  - destruct (float_mul x (float_of_int m)); cbn in H; congruence.
  - rewrite (float_raises_ValueError s e' Hf) in H. cbn in H. discriminate H.
Qed.

(** X3: the only exception [_convert_count] lets through is
    [OverflowError]: what [float] raises is a [ValueError], which is
    caught, as is the [ValueError] of [int] on a NaN. *)
Theorem convert_count_raises_only_OverflowError :
  forall (count_str : option string) (e : exn),
    _convert_count count_str = Raise e -> e = OverflowError.
Proof.
  intros count_str e H. unfold _convert_count in H.
  destruct count_str as [s |]; [| discriminate H].
  destruct (is_empty s); [discriminate H |].
  destruct (endswith (replace "," "" s) "K");
    [exact (scale_raises_OverflowError _ _ _ H) |].
  destruct (endswith (replace "," "" s) "M");
    [exact (scale_raises_OverflowError _ _ _ H) |].
  destruct (endswith (replace "," "" s) "B");
    exact (scale_raises_OverflowError _ _ _ H).
Qed.

Lemma binary_round_aux_sign :
  forall sx mx ex lx, sign_clear (binary_round_aux prec emax sx mx ex lx) = true \/
     binary_round_aux prec emax sx mx ex lx = S754_zero sx \/
     (exists m e, binary_round_aux prec emax sx mx ex lx = S754_finite sx m e) \/
     binary_round_aux prec emax sx mx ex lx = S754_infinity sx.
Proof.
  intros sx mx ex lx. unfold binary_round_aux.
  destruct (shr_fexp prec emax mx ex lx) as [mrs' e'].
  destruct (shr_fexp prec emax _ e' loc_Exact) as [mrs'' e''].
  destruct (shr_m mrs'') as [| m | m].
  - right. left. reflexivity.
  - destruct (e'' <=? emax - prec).
    + right. right. left. eauto.
    + right. right. right. reflexivity.
  - left. reflexivity.
Qed.

Lemma binary_round_aux_clear :
  forall mx ex lx, sign_clear (binary_round_aux prec emax false mx ex lx) = true.
Proof.
  intros mx ex lx.
  destruct (binary_round_aux_sign false mx ex lx) as [H | [H | [[m [e H]] | H]]];
    [exact H | | |]; rewrite H; reflexivity.
Qed.

Lemma float_of_decimal_clear :
  forall m e10, sign_clear (float_of_decimal false m e10) = true.
Proof.
  intros m e10. unfold float_of_decimal.
  destruct (m =? 0); [reflexivity |].
  destruct (SFdiv_core_binary prec emax _ 0 _ 0) as [[q e] l].
  apply binary_round_aux_clear.
Qed.

Lemma float_mul_clear :
  forall x m e,
    sign_clear x = true ->
    sign_clear (float_mul x (S754_finite false m e)) = true.
Proof.
  intros x m e H. unfold float_mul, SFmul.
  destruct x as [s | s | | s mx ex]; cbn [sign_clear] in H |- *.
  - rewrite xorb_false_r. exact H.
  - rewrite xorb_false_r. exact H.
  - reflexivity.
  - apply negb_true_iff in H. subst s. apply binary_round_aux_clear.
Qed.

Lemma int_of_float_clear :
  forall x n, sign_clear x = true -> int_of_float x = Ok n -> 0 <= n.
Proof.
  intros x n H Hn. destruct x as [s | s | | s m e]; cbn in Hn; try discriminate Hn.
  - injection Hn as <-. lia.
  - cbn [sign_clear] in H. apply negb_true_iff in H. subst s.
    injection Hn as <-. cbn [cond_Zopp]. apply Z.shiftl_nonneg. lia.
Qed.

Lemma read_sign_no_minus :
  forall s, no_minus s = true -> fst (read_sign s) = false.
Proof.
  intros s H. destruct s as [| c t]; [reflexivity |].
  cbn [no_minus] in H. apply andb_true_iff in H. destruct H as [Hc _].
  apply negb_true_iff in Hc.
  destruct c as [[] [] [] [] [] [] [] []]; try reflexivity; discriminate Hc.
Qed.

Lemma transform_chars_no_minus :
  forall s, no_minus s = true -> no_minus (transform_chars s) = true.
Proof.
  induction s as [| c s IH]; intro H; [reflexivity |].
  cbn [no_minus] in H. apply andb_true_iff in H. destruct H as [Hc Hs].
  cbn [transform_chars].
  destruct (code c <? 127).
  - cbn [no_minus]. rewrite Hc, (IH Hs). reflexivity.
  - destruct (isspace c); [| reflexivity].
    cbn [no_minus]. rewrite (IH Hs). reflexivity.
Qed.

Lemma strip_underscores_no_minus :
  forall s prev s',
    strip_underscores prev s = Some s' ->
    no_minus s = true -> no_minus s' = true.
Proof.
  induction s as [| c s IH]; intros prev s' Hs H.
  - cbn [strip_underscores] in Hs. destruct (Ascii.eqb prev "_"); [discriminate Hs |].
    injection Hs as <-. reflexivity.
  - cbn [no_minus] in H. apply andb_true_iff in H. destruct H as [Hc Hn].
    cbn [strip_underscores] in Hs.
    destruct (Ascii.eqb c "_").
    + destruct (is_digit prev); [| discriminate Hs]. exact (IH _ _ Hs Hn).
    + destruct (Ascii.eqb prev "_" && negb (is_digit c)); [discriminate Hs |].
      destruct (strip_underscores c s) as [t |] eqn:Ht; [| discriminate Hs].
      cbn [option_map] in Hs. injection Hs as <-.
      cbn [no_minus]. rewrite Hc, (IH _ _ Ht Hn). reflexivity.
Qed.

Lemma lstrip_no_minus :
  forall s, no_minus s = true -> no_minus (lstrip s) = true.
Proof.
  induction s as [| c s IH]; intro H; [reflexivity |].
  cbn [lstrip]. destruct (Py_ISSPACE c); [| exact H].
  cbn [no_minus] in H. apply andb_true_iff in H. exact (IH (proj2 H)).
Qed.

Lemma rstrip1_no_minus :
  forall s, no_minus s = true -> no_minus (rstrip1 s) = true.
Proof.
  induction s as [| c s IH]; intro H; [reflexivity |].
  destruct s as [| d s0]; [exact H |].
  assert (Hc : negb (Ascii.eqb c "-") = true /\ no_minus (String d s0) = true).
  { cbn [no_minus] in H. apply andb_true_iff in H. exact H. }
  destruct Hc as [Hc Ht]. specialize (IH Ht).
  change (rstrip1 (String c (String d s0))) with
    (match rstrip1 (String d s0) with
     | String e EmptyString =>
         if Py_ISSPACE e then String c EmptyString else String c (String e EmptyString)
     | r => String c r
     end).
  destruct (rstrip1 (String d s0)) as [| e r].
  - cbn [no_minus]. rewrite Hc. reflexivity.
  - destruct r as [| f r'].
    + destruct (Py_ISSPACE e); cbn [no_minus] in IH |- *; rewrite Hc; [reflexivity |].
      exact IH.
    + change (no_minus (String c (String e (String f r'))))
        with (negb (Ascii.eqb c "-") && no_minus (String e (String f r'))).
      rewrite Hc, IH. reflexivity.
Qed.

Lemma ascii_strtod_clear :
  forall s x rest,
    ascii_strtod s = Some (x, rest) -> no_minus s = true -> sign_clear x = true.
Proof.
  intros s x rest Hs H. pose proof (read_sign_no_minus s H) as Hneg.
  unfold ascii_strtod in Hs.
  destruct (strtod s) as [[x' rest'] |] eqn:Hd.
  - injection Hs as <- <-. unfold strtod in Hd.
    destruct (read_sign s) as [neg s1]. cbn [fst] in Hneg. subst neg.
    destruct (read_digits 0 0 s1) as [[m1 n1] s2].
    destruct (match s2 with
              | String "." t => read_digits m1 0 t
              | _ => (m1, 0, s2)
              end) as [[m2 n2] s3].
    destruct (n1 + n2 =? 0); [discriminate Hd |].
    destruct (read_exponent s3) as [e s4].
    injection Hd as <- _. apply float_of_decimal_clear.
  - unfold parse_inf_or_nan in Hs.
    destruct (read_sign s) as [neg s1]. cbn [fst] in Hneg. subst neg.
    destruct (ci_prefix s1 "inf") as [s2 |].
    + destruct (ci_prefix s2 "inity"); injection Hs as <- _; reflexivity.
    + destruct (ci_prefix s1 "nan"); [| discriminate Hs].
      injection Hs as <- _. reflexivity.
Qed.

(** [float] of a text without minus sign is not below zero. *)
Lemma float_clear :
  forall s x, float s = Ok x -> no_minus s = true -> sign_clear x = true.
Proof.
  intros s x Hf H. unfold float in Hf.
  assert (H1 : no_minus (transform_decimal_and_space s) = true).
  { unfold transform_decimal_and_space.
    destruct (is_ascii s); [exact H | exact (transform_chars_no_minus s H)]. }
  destruct (strip_underscores zero (transform_decimal_and_space s)) as [s' |] eqn:Hs;
    [| discriminate Hf].
  pose proof (strip_underscores_no_minus _ _ _ Hs H1) as H2.
  unfold float_from_string_inner in Hf.
  destruct (is_empty (lstrip s')); [discriminate Hf |].
  destruct (ascii_strtod (rstrip1 (lstrip s'))) as [[y rest] |] eqn:Hd;
    [| discriminate Hf].
  destruct rest; [| discriminate Hf]. injection Hf as <-.
  apply (ascii_strtod_clear _ _ _ Hd).
  apply rstrip1_no_minus, lstrip_no_minus. exact H2.
Qed.

Lemma scale_nonneg :
  forall s m n,
    In m [1; 1000; 1000000; 1000000000] ->
    no_minus s = true -> scale s m = Ok n -> 0 <= n.
Proof.
  intros s m n Hm H Hn. unfold scale, try_except in Hn.
  destruct (float s) as [x | e] eqn:Hf; cbn [bind] in Hn.
  - pose proof (float_clear s x Hf H) as Hx.
    assert (Hy : exists p e, float_of_int m = S754_finite false p e).
    { cbn [In] in Hm. destruct Hm as [<- | [<- | [<- | [<- | []]]]];
        vm_compute; eauto. }
    destruct Hy as [p [e Hy]]. rewrite Hy in Hn.
    pose proof (float_mul_clear x p e Hx) as Hp.
    destruct (int_of_float (float_mul x (S754_finite false p e))) as [k | e'] eqn:Hi.
    + injection Hn as <-. exact (int_of_float_clear _ _ Hp Hi).
    + destruct (is_ValueError e'); [| discriminate Hn]. injection Hn as <-. lia.
  - destruct (is_ValueError e); [| discriminate Hn]. injection Hn as <-. lia.
Qed.

Lemma replace_comma_no_minus :
  forall s, no_minus s = true -> no_minus (replace "," "" s) = true.
Proof.
  induction s as [| c s IH]; intro H; [reflexivity |].
  cbn [no_minus] in H. apply andb_true_iff in H. destruct H as [Hc Hs].
  rewrite replace_comma_cons.
  destruct (Ascii.eqb "," c); [exact (IH Hs) |].
  cbn [no_minus]. rewrite Hc, (IH Hs). reflexivity.
Qed.

Lemma drop_last_no_minus :
  forall s, no_minus s = true -> no_minus (drop_last s) = true.
Proof.
  induction s as [| c s IH]; intro H; [reflexivity |].
  cbn [no_minus] in H. apply andb_true_iff in H. destruct H as [Hc Hs].
  destruct s as [| d s0]; [reflexivity |].
  change (drop_last (String c (String d s0))) with (String c (drop_last (String d s0))).
  cbn [no_minus]. rewrite Hc. exact (IH Hs).
Qed.

(** A count string without minus sign gives no negative count. *)
Lemma convert_count_no_minus :
  forall s n,
    no_minus s = true -> _convert_count (Some s) = Ok n -> 0 <= n.
Proof.
  intros s n H Hn. unfold _convert_count in Hn.
  destruct (is_empty s); [injection Hn as <-; lia |].
  pose proof (replace_comma_no_minus s H) as H1.
  pose proof (drop_last_no_minus _ H1) as H2.
  destruct (endswith (replace "," "" s) "K");
    [apply (scale_nonneg _ 1000 n) in Hn; [exact Hn | cbn; tauto | exact H2] |].
  destruct (endswith (replace "," "" s) "M");
    [apply (scale_nonneg _ 1000000 n) in Hn; [exact Hn | cbn; tauto | exact H2] |].
  destruct (endswith (replace "," "" s) "B");
    [apply (scale_nonneg _ 1000000000 n) in Hn; [exact Hn | cbn; tauto | exact H2] |].
  apply (scale_nonneg _ 1 n) in Hn; [exact Hn | cbn; tauto | exact H1].
Qed.

(** *** Patterns: what a match consumes *)

Lemma once_inv :
  forall (R : Type) cls (k : string -> option R) s r,
    Re.once cls k s = Some r ->
    exists c s', s = String c s' /\ cls c = true /\ k s' = Some r.
Proof.
  intros R cls k s r H. destruct s as [| c s']; [discriminate H |].
  cbn [Re.once] in H. destruct (cls c) eqn:Hc; [| discriminate H]. eauto.
Qed.

Lemma first_of_inv :
  forall (R : Type) (a b : option R) r,
    Re.first_of a b = Some r -> a = Some r \/ b = Some r.
Proof.
  intros R a b r H. destruct a; [left | right]; exact H.
Qed.

Lemma greedy_inv :
  forall (R : Type) cls (k : string -> option R) s r,
    Re.greedy cls k s = Some r ->
    exists a s', s = a ++ s' /\ all_chars cls a = true /\ k s' = Some r.
Proof.
  intros R cls k. induction s as [| c s IH]; intros r H.
  - exists "", "". auto.
  - cbn [Re.greedy] in H. destruct (cls c) eqn:Hc.
    + destruct (first_of_inv _ _ _ _ H) as [H1 | H1].
      * destruct (IH _ H1) as [a [s' [-> [Ha Hk]]]].
        exists (String c a), s'. cbn [append all_chars]. rewrite Hc, Ha. auto.
      * exists "", (String c s). auto.
    + exists "", (String c s). auto.
Qed.

Lemma lazy_inv :
  forall (R : Type) cls (k : string -> option R) s r,
    Re.lazy cls k s = Some r ->
    exists a s', s = a ++ s' /\ all_chars cls a = true /\ k s' = Some r.
Proof.
  intros R cls k. induction s as [| c s IH]; intros r H.
  - cbn [Re.lazy] in H. destruct (first_of_inv _ _ _ _ H) as [H1 | H1];
      [| discriminate H1]. exists "", "". auto.
  - cbn [Re.lazy] in H. destruct (first_of_inv _ _ _ _ H) as [H1 | H1].
    + exists "", (String c s). auto.
    + destruct (cls c) eqn:Hc; [| discriminate H1].
      destruct (IH _ H1) as [a [s' [-> [Ha Hk]]]].
      exists (String c a), s'. cbn [append all_chars]. rewrite Hc, Ha. auto.
Qed.

(** Whatever a pattern matches, the result is one its continuation gave. *)
Lemma run_result :
  forall (R : Type) (P : R -> Prop) p (k : string -> option R),
    (forall t r, k t = Some r -> P r) ->
    forall s r, Re.run p k s = Some r -> P r.
Proof.
  intros R P. induction p as [| [cls q] p IH]; intros k Hk s r H.
  - exact (Hk _ _ H).
  - cbn [Re.run Re.step] in H.
    assert (Hrest : forall t r, Re.run p k t = Some r -> P r) by (intros; eapply IH; eauto).
    destruct q.
    + destruct (once_inv _ _ _ _ _ H) as [c [s' [_ [_ H1]]]]. eauto.
    + destruct (first_of_inv _ _ _ _ H) as [H1 | H1]; [| eauto].
      destruct (once_inv _ _ _ _ _ H1) as [c [s' [_ [_ H2]]]]. eauto.
    + destruct (greedy_inv _ _ _ _ _ H) as [a [s' [_ [_ H1]]]]. eauto.
    + destruct (once_inv _ _ _ _ _ H) as [c [s' [_ [_ H1]]]].
      destruct (greedy_inv _ _ _ _ _ H1) as [a [s'' [_ [_ H2]]]]. eauto.
    + destruct (once_inv _ _ _ _ _ H) as [c [s' [_ [_ H1]]]].
      destruct (lazy_inv _ _ _ _ _ H1) as [a [s'' [_ [_ H2]]]]. eauto.
Qed.

Lemma run_const :
  forall (R : Type) p (v : R) s r,
    Re.run p (fun _ => Some v) s = Some r -> r = v.
Proof.
  intros R p v s r H.
  apply (run_result R (fun x => x = v) p (fun _ => Some v)) with (s := s);
    [intros t x E; congruence | exact H].
Qed.

Lemma length_append :
  forall a b, String.length (a ++ b) = (String.length a + String.length b)%nat.
Proof.
  induction a as [| c a IH]; intro b; [reflexivity |].
  cbn [append String.length]. rewrite IH. reflexivity.
Qed.

Lemma take_append :
  forall a b, Re.take (String.length a) (a ++ b) = a.
Proof.
  induction a as [| c a IH]; intro b; [reflexivity |].
  cbn [append String.length Re.take]. rewrite IH. reflexivity.
Qed.

Lemma consumed_append :
  forall a b, Re.consumed (a ++ b) b = a.
Proof.
  intros a b. unfold Re.consumed. rewrite length_append.
  replace (String.length a + String.length b - String.length b)%nat
    with (String.length a) by lia.
  apply take_append.
Qed.

Lemma append_snoc :
  forall a d s, (a ++ String d "") ++ s = a ++ String d s.
Proof.
  induction a as [| c a IH]; intros d s; [reflexivity |].
  cbn [append]. rewrite IH. reflexivity.
Qed.

Lemma all_chars_append :
  forall P a b, all_chars P (a ++ b) = all_chars P a && all_chars P b.
Proof.
  intros P. induction a as [| c a IH]; intro b; [reflexivity |].
  cbn [append all_chars]. rewrite IH, andb_assoc. reflexivity.
Qed.

Lemma all_chars_weaken :
  forall (P Q : ascii -> bool) s,
    (forall c, P c = true -> Q c = true) ->
    all_chars P s = true -> all_chars Q s = true.
Proof.
  intros P Q s HPQ. induction s as [| c s IH]; intro H; [reflexivity |].
  cbn [all_chars] in *. apply andb_true_iff in H. destruct H as [Hc Hs].
  rewrite (HPQ c Hc), (IH Hs). reflexivity.
Qed.

(** The token in front of a word is made of digits, commas, points and at
    most one suffix letter at its end. *)
Lemma count_token_chars :
  forall word s token,
    Re.match_here (Re.count_before word) s = Some token ->
    all_chars (fun c => Re.count_char c || Re.suffix_char_i c) token = true.
Proof.
  intros word s token H. unfold Re.match_here, Re.count_before in H.
  cbn [Re.pre Re.grp Re.post Re.run Re.step] in H.
  destruct (once_inv _ _ _ _ _ H) as [c [s1 [-> [Hc H1]]]].
  destruct (greedy_inv _ _ _ _ _ H1) as [a [s2 [-> [Ha H2]]]].
  assert (Hend : forall rest t,
             Re.once Py.isspace
               (Re.greedy Py.isspace
                  (Re.run (Re.literal_i word)
                     (fun _ => Some (Re.consumed (String c (a ++ s2)) rest)))) rest
             = Some t ->
             t = Re.consumed (String c (a ++ s2)) rest).
  { intros rest t Ht.
    destruct (once_inv _ _ _ _ _ Ht) as [d [s3 [_ [_ H3]]]].
    destruct (greedy_inv _ _ _ _ _ H3) as [b [s4 [_ [_ H4]]]].
    exact (run_const _ _ _ _ _ H4). }
  assert (Ha' : all_chars (fun c => Re.count_char c || Re.suffix_char_i c) (String c a) = true).
  { apply (all_chars_weaken Re.count_char); [intros x Hx; rewrite Hx; reflexivity |].
    cbn [all_chars]. rewrite Hc, Ha. reflexivity. }
  destruct (first_of_inv _ _ _ _ H2) as [H3 | H3].
  - destruct (once_inv _ _ _ _ _ H3) as [d [s3 [-> [Hd H4]]]].
    apply Hend in H4. subst token.
    replace (String c (a ++ String d s3)) with ((String c a ++ String d "") ++ s3).
    + rewrite consumed_append, all_chars_append, Ha'. cbn [all_chars].
      rewrite Hd, orb_true_r. reflexivity.
    + cbn [append]. f_equal. apply append_snoc.
  - apply Hend in H3. subst token.
    change (String c (a ++ s2)) with (String c a ++ s2).
    rewrite consumed_append. exact Ha'.
Qed.

Lemma search_count_token_chars :
  forall word s token,
    Re.search (Re.count_before word) s = Some token ->
    all_chars (fun c => Re.count_char c || Re.suffix_char_i c) token = true.
Proof.
  intros word. induction s as [| c s IH]; intros token H; cbn [Re.search] in H.
  - destruct (first_of_inv _ _ _ _ H) as [H1 | H1]; [| discriminate H1].
    exact (count_token_chars _ _ _ H1).
  - destruct (first_of_inv _ _ _ _ H) as [H1 | H1].
    + exact (count_token_chars _ _ _ H1).
    + exact (IH _ H1).
Qed.

Lemma token_char_no_minus :
  forall s,
    all_chars (fun c => Re.count_char c || Re.suffix_char_i c) s = true ->
    no_minus s = true.
Proof.
  induction s as [| c s IH]; intro H; [reflexivity |].
  cbn [all_chars] in H. apply andb_true_iff in H. destruct H as [Hc Hs].
  cbn [no_minus]. rewrite (IH Hs), andb_true_r.
  destruct (Ascii.eqb c "-") eqn:E; [| reflexivity].
  apply Ascii.eqb_eq in E. subst c. discriminate Hc.
Qed.

(** A count read in the description is not negative. *)
Lemma count_of_match_nonneg :
  forall word bio n,
    count_of_match (Re.search (Re.count_before word) bio) = Ok n -> 0 <= n.
Proof.
  intros word bio n H. unfold count_of_match in H.
  destruct (Re.search (Re.count_before word) bio) as [token |] eqn:Hs.
  - apply (convert_count_no_minus token n); [| exact H].
    apply token_char_no_minus. exact (search_count_token_chars _ _ _ Hs).
  - injection H as <-. lia.
Qed.

(** Removing a character leaves none of it. *)
Lemma replace_char_cons :
  forall k c s,
    replace (String k "") "" (String c s) =
      if Ascii.eqb k c then replace (String k "") "" s
      else String c (replace (String k "") "" s).
Proof.
  intros k c s. unfold replace. cbn [is_empty replace_from startswith].
  destruct (Ascii.eqb k c); reflexivity.
Qed.

Lemma replace_char_removes :
  forall k s,
    all_chars (fun c => negb (Ascii.eqb c k)) (replace (String k "") "" s) = true.
Proof.
  intros k. induction s as [| c s IH]; [reflexivity |].
  rewrite replace_char_cons.
  destruct (Ascii.eqb k c) eqn:E; [exact IH |].
  cbn [all_chars]. rewrite IH, andb_true_r.
  rewrite Ascii.eqb_sym, E. reflexivity.
Qed.

(** X5: whenever the meta-tag extractor gives a record, the [og:title]
    content was not empty and the record has the six keys [username],
    [biography], [profile_pic], [followers], [following], [posts]: the
    biography and the picture are the contents of [og:description] and
    [og:image] as they are, the three counts are integers that are not
    negative, and the username holds no [")"]. *)
Theorem meta_record_invariant :
  forall (page : soup) (r : value),
    _extract_meta_data page = Some r ->
    exists title followers following posts,
      content_of (find "meta" "property" "og:title" page) = Some title
      /\ is_empty title = false
      /\ r = VDict
           [ ("username", VStr (replace ")" "" (replace " (@" "" title)));
             ("biography",
                of_option_str (content_of (find "meta" "property" "og:description" page)));
             ("profile_pic",
                of_option_str (content_of (find "meta" "property" "og:image" page)));
             ("followers", VInt followers);
             ("following", VInt following);
             ("posts", VInt posts) ]
      /\ 0 <= followers /\ 0 <= following /\ 0 <= posts
      /\ all_chars (fun c => negb (Ascii.eqb c ")"))
           (replace ")" "" (replace " (@" "" title)) = true.
Proof.
  intros page r H. unfold _extract_meta_data in H.
  destruct (meta_data_body page) as [o | e] eqn:Hb; [| discriminate H]. subst o.
  unfold meta_data_body in Hb.
  destruct (content_of (find "meta" "property" "og:title" page)) as [title |];
    [| discriminate Hb].
  destruct (is_empty title) eqn:Ht; [discriminate Hb |]. cbn [negb] in Hb.
  set (bio := content_of (find "meta" "property" "og:description" page)) in *.
  assert (Hcounts :
    forall c : result (Z * Z * Z),
      (forall f g p, c = Ok (f, g, p) -> 0 <= f /\ 0 <= g /\ 0 <= p) ->
      (counts <- c ;;
       let '(followers, following, posts) := counts in
       Ok (Some (VDict
         [ ("username", VStr (replace ")" "" (replace " (@" "" title)));
           ("biography", of_option_str bio);
           ("profile_pic",
              of_option_str (content_of (find "meta" "property" "og:image" page)));
           ("followers", VInt followers);
           ("following", VInt following);
           ("posts", VInt posts) ]))) = Ok (Some r) ->
      exists followers following posts,
        r = VDict
          [ ("username", VStr (replace ")" "" (replace " (@" "" title)));
            ("biography", of_option_str bio);
            ("profile_pic",
               of_option_str (content_of (find "meta" "property" "og:image" page)));
            ("followers", VInt followers);
            ("following", VInt following);
            ("posts", VInt posts) ]
        /\ 0 <= followers /\ 0 <= following /\ 0 <= posts).
  { intros c Hc Hr. destruct c as [[[f g] p] | e]; [| discriminate Hr].
    cbn [bind] in Hr. injection Hr as <-.
    exists f, g, p. split; [reflexivity | exact (Hc f g p eq_refl)]. }
  apply Hcounts in Hb.
  - destruct Hb as [f [g [p [Hr Hn]]]].
    exists title, f, g, p. split; [reflexivity |]. split; [exact Ht |].
    split; [exact Hr |].
    destruct Hn as [Hf [Hg Hp]]. repeat split; try assumption.
    apply replace_char_removes.
  - intros f g p Hc. destruct bio as [b |].
    + destruct (is_empty b); cbn [negb] in Hc.
      * injection Hc as <- <- <-. lia.
      * destruct (count_of_match (Re.search (Re.count_before "Followers") b))
          as [f' |] eqn:Hf; [| discriminate Hc].
        destruct (count_of_match (Re.search (Re.count_before "Following") b))
          as [g' |] eqn:Hg; [| discriminate Hc].
        destruct (count_of_match (Re.search (Re.count_before "Posts") b))
          as [p' |] eqn:Hp; [| discriminate Hc].
        cbn [bind] in Hc. injection Hc as <- <- <-.
        repeat split; eapply count_of_match_nonneg; eassumption.
    + injection Hc as <- <- <-. lia.
Qed.

(** *** JSON strategy: the loop over the endpoints *)

Lemma endpoint_loop_cons :
  forall session_get endpoint rest,
    endpoint_loop session_get (endpoint :: rest) =
      (r <- endpoint_step session_get endpoint ;;
       match r with
       | Some o => Ok o
       | None => endpoint_loop session_get rest
       end).
Proof.
  intros session_get endpoint rest. cbn [endpoint_loop]. unfold endpoint_step.
  destruct (session_get endpoint) as [| status_code [data |]]; try reflexivity.
  - destruct (status_code =? 200); reflexivity.
  - destruct (status_code =? 200); reflexivity.
Qed.



(** Membership tests and subscripts raise nothing but [TypeError] when
    the subscript follows its membership test. *)
Lemma has_path_raises :
  forall data k1 k2 e, has_path data k1 k2 = Raise e -> e = TypeError.
Proof.
  intros data k1 k2 e H. unfold has_path in H.
  destruct data as [| b | n | x | s | l | d]; cbn [py_in bind] in H;
    try (injection H as <-; reflexivity).
  - destruct (contains s k1); cbn in H; [| discriminate H].
    injection H as <-. reflexivity.
  - destruct (existsb _ l); cbn in H; [| discriminate H].
    injection H as <-. reflexivity.
  - destruct (lookup k1 d) as [inner |] eqn:Hl; cbn [getitem bind] in H;
      [| discriminate H].
    rewrite Hl in H. cbn [bind] in H.
    destruct inner; cbn [py_in] in H; try discriminate H;
      injection H as <-; reflexivity.
Qed.

Lemma at_path_after_has_path :
  forall data k1 k2,
    has_path data k1 k2 = Ok true ->
    (exists u, at_path data k1 k2 = Ok u) \/ at_path data k1 k2 = Raise TypeError.
Proof.
  intros data k1 k2 H. unfold has_path, at_path in *.
  destruct data as [| b | n | x | s | l | d]; cbn [py_in bind getitem] in *;
    try discriminate H.
  - destruct (contains s k1); cbn in H; discriminate H.
  - destruct (existsb _ l); cbn in H; discriminate H.
  - destruct (lookup k1 d) as [inner |]; cbn [bind] in *; [| discriminate H].
    destruct inner as [| b | n | x | s | l | d']; cbn [py_in getitem] in *;
      try discriminate H; try (right; reflexivity).
    destruct (lookup k2 d') as [u |]; [left; eauto | discriminate H].
Qed.

(** What one decoded body gives: a success that names the endpoint and
    holds the normalized user of one of the two paths, nothing, or a
    [TypeError]. *)
Lemma endpoint_data_cases :
  forall endpoint data,
    match endpoint_data endpoint data with
    | Ok (Some o) =>
        exists user,
          o = Success ("JSON_Endpoint: " ++ endpoint) (_extract_user_info user)
          /\ (at_path data "graphql" "user" = Ok user
              \/ at_path data "data" "user" = Ok user)
    | Ok None => True
    | Raise e => e = TypeError
    end.
Proof.
  intros endpoint data. unfold endpoint_data.
  destruct (has_path data "graphql" "user") as [[|] | e] eqn:Hg; cbn [bind].
  - destruct (at_path_after_has_path _ _ _ Hg) as [[u Hu] | Hu]; rewrite Hu; cbn [bind].
    + exists u. auto.
    + reflexivity.
  - destruct (has_path data "data" "user") as [[|] | e] eqn:Hd; cbn [bind].
    + destruct (at_path_after_has_path _ _ _ Hd) as [[u Hu] | Hu]; rewrite Hu; cbn [bind].
      * exists u. auto.
      * reflexivity.
    + exact I.
    + exact (has_path_raises _ _ _ _ Hd).
  - exact (has_path_raises _ _ _ _ Hg).
Qed.

(** The same for the whole loop. *)
Lemma endpoint_loop_cases :
  forall session_get eps,
    match endpoint_loop session_get eps with
    | Ok (Success method data) =>
        exists endpoint body user,
          In endpoint eps
          /\ session_get endpoint = Response 200 (Some body)
          /\ method = "JSON_Endpoint: " ++ endpoint
          /\ data = _extract_user_info user
          /\ (at_path body "graphql" "user" = Ok user
              \/ at_path body "data" "user" = Ok user)
    | Ok (Failure err) => err = All_JSON_endpoints_failed
    | Raise e => e = TypeError
    end.
Proof.
  intros session_get. induction eps as [| endpoint rest IH]; [reflexivity |].
  assert (Hrest :
    match endpoint_loop session_get rest with
    | Ok (Success method data) =>
        exists endpoint' body user,
          In endpoint' (endpoint :: rest)
          /\ session_get endpoint' = Response 200 (Some body)
          /\ method = "JSON_Endpoint: " ++ endpoint'
          /\ data = _extract_user_info user
          /\ (at_path body "graphql" "user" = Ok user
              \/ at_path body "data" "user" = Ok user)
    | Ok (Failure err) => err = All_JSON_endpoints_failed
    | Raise e => e = TypeError
    end).
  { destruct (endpoint_loop session_get rest) as [[method data | err] | e]; try exact IH.
    destruct IH as [e' [body [user [Hin H]]]]. exists e', body, user.
    split; [right; exact Hin | exact H]. }
  rewrite endpoint_loop_cons. unfold endpoint_step.
  destruct (session_get endpoint) as [| status_code [body |]] eqn:Hget;
    cbn [bind]; try exact Hrest.
  destruct (Z.eqb_spec status_code 200) as [-> | _]; cbn [bind]; [| exact Hrest].
  pose proof (endpoint_data_cases endpoint body) as Hd.
  destruct (endpoint_data endpoint body) as [[o |] | e]; cbn [bind].
  - destruct Hd as [user [-> Hu]].
    exists endpoint, body, user. repeat split; auto. left. reflexivity.
  - exact Hrest.
  - exact Hd.
Qed.


(** *** Normalizer: shape of the result *)

(** The normalizer gives a dictionary exactly when it was given one. *)
Lemma extract_user_info_is_dict :
  forall user_data, is_dict (_extract_user_info user_data) = is_dict user_data.
Proof.
  intro user_data. unfold _extract_user_info.
  destruct user_data as [| b | n | x | s | l | d]; try reflexivity.
  rewrite user_info_body_dict.
  destruct (nested_count (VDict d) "edge_followed_by"); [| reflexivity].
  destruct (nested_count (VDict d) "edge_follow"); [| reflexivity].
  destruct (nested_count (VDict d) "edge_owner_to_timeline_media"); reflexivity.
Qed.

(** X9: the normalizer is not idempotent.  Applied to a record it has
    produced, it keeps [id], [username], [full_name], [biography],
    [is_verified], [external_url] and [is_private], and resets the three
    counts to 0, the picture to [None] and [is_business] to [False]: the
    record does not have the raw keys they are read from. *)
Theorem normalizing_twice_resets_counts :
  forall d : list (string * value),
    unexpected_shape (VDict d) = false ->
    exists info,
      _extract_user_info (VDict d) = VDict info
      /\ _extract_user_info (VDict info) =
           VDict
             [ ("id", entry_or_none "id" info);
               ("username", entry_or_none "username" info);
               ("full_name", entry_or_none "full_name" info);
               ("biography", entry_or_none "biography" info);
               ("followers", VInt 0);
               ("following", VInt 0);
               ("posts", VInt 0);
               ("profile_pic", VNone);
               ("is_verified", entry_or_none "is_verified" info);
               ("is_business", VBool false);
               ("external_url", entry_or_none "external_url" info);
               ("is_private", entry_or_none "is_private" info) ].
Proof.
  intros d H.
  unfold unexpected_shape, count_containers in H. cbn [existsb] in H.
  destruct (container_ok d "edge_followed_by") eqn:H1; [| discriminate H].
  destruct (container_ok d "edge_follow") eqn:H2; [| discriminate H].
  destruct (container_ok d "edge_owner_to_timeline_media") eqn:H3; [| discriminate H].
  unfold _extract_user_info at 1. rewrite user_info_body_dict.
  rewrite (nested_count_ok _ _ H1), (nested_count_ok _ _ H2), (nested_count_ok _ _ H3).
  cbn [bind]. eexists. split; [reflexivity |]. reflexivity.
Qed.

(** *** HTML strategy: what it can give *)

Lemma meta_data_is_dict :
  forall page r, _extract_meta_data page = Some r -> is_dict r = true.
Proof.
  intros page r H. unfold _extract_meta_data in H.
  destruct (meta_data_body page) as [o | e] eqn:Hb; [| discriminate H]. subst o.
  unfold meta_data_body in Hb.
  destruct (content_of (find "meta" "property" "og:title" page)) as [title |];
    [| discriminate Hb].
  destruct (negb (is_empty title)); [| discriminate Hb].
  match type of Hb with (counts <- ?c ;; _) = _ => destruct c as [[[f g] p] | e] end;
    [| discriminate Hb].
  cbn [bind] in Hb. injection Hb as <-. reflexivity.
Qed.

(** A success of the HTML strategy carries one of its two tags, and under
    [MetaTags] its data is a dictionary. *)
Lemma html_success :
  forall json_loads session_get username method data,
    get_user_data_requests json_loads session_get username = Success method data ->
    In method html_tags /\ (method = "MetaTags" -> is_dict data = true).
Proof.
  intros json_loads session_get username method data H.
  unfold get_user_data_requests in H.
  destruct (session_get (base_url ++ "/" ++ username ++ "/")) as [| status_code page];
    [discriminate H |].
  destruct (negb (status_code =? 200)); [discriminate H |].
  unfold page_body in H.
  destruct (scan_scripts json_loads (find_all "script" "type" "text/javascript" page))
    as [[user_data |] | e]; cbn [bind] in H; try discriminate H.
  - injection H as <- <-. split; [left; reflexivity | discriminate].
  - destruct (_extract_meta_data page) as [meta_data |] eqn:Hm; [| discriminate H].
    injection H as <- <-. split; [right; left; reflexivity |].
    intros _. exact (meta_data_is_dict page meta_data Hm).
Qed.


(** *** The test harness *)

(** The report raises exactly on a success whose data is no dictionary. *)
Lemma report_cases :
  forall r, report r = if reportable r then Ok tt else Raise AttributeError.
Proof.
  intro r. destruct r as [method data | err]; [| reflexivity].
  destruct data; reflexivity.
Qed.

Lemma test_all_methods_unfold :
  forall json_loads get_json get_page username,
    test_all_methods json_loads get_json get_page username =
      (r1 <- get_user_data_json_endpoint get_json username ;;
       if reportable r1 then
         let r2 := get_user_data_requests json_loads get_page username in
         if reportable r2 then
           Ok [entry_of "JSON Endpoints" username r1; entry_of "HTML Scraping" username r2]
         else Raise AttributeError
       else Raise AttributeError).
Proof.
  intros json_loads get_json get_page username.
  unfold test_all_methods. cbn [run_methods].
  destruct (get_user_data_json_endpoint get_json username) as [r1 | e]; [| reflexivity].
  cbn [bind]. rewrite report_cases.
  destruct (reportable r1); [| reflexivity]. cbn [bind].
  rewrite report_cases.
  destruct (reportable (get_user_data_requests json_loads get_page username));
    reflexivity.
Qed.

(** X12: when the JSON strategy succeeds on a user value that is no
    dictionary (a null [graphql.user], say), [test_all_methods] raises
    [AttributeError] while it reports the data, and returns no entry. *)
Theorem test_all_methods_raises_on_raw_data :
  forall (json_loads : string -> result value)
         (get_json : string -> fetched (option value))
         (get_page : string -> fetched soup) (username method : string)
         (user : value),
    get_user_data_json_endpoint get_json username
      = Ok (Success method (_extract_user_info user)) ->
    is_dict user = false ->
    test_all_methods json_loads get_json get_page username = Raise AttributeError.
Proof.
  intros json_loads get_json get_page username method user Hjson Hdict.
  rewrite test_all_methods_unfold, Hjson. cbn [bind reportable].
  rewrite extract_user_info_is_dict, Hdict. reflexivity.
Qed.



(** X10: when [test_all_methods] returns, it returns two entries, the
    JSON strategy's then the HTML strategy's, both under the user name
    given.  The [method] of a successful entry is the tag of the strategy
    (the dictionary of the outcome is merged last) and its data is a
    dictionary; the [method] of a failed entry is the name the harness
    gives the method, and it has no data. *)
Theorem test_all_methods_entries :
  forall (json_loads : string -> result value)
         (get_json : string -> fetched (option value))
         (get_page : string -> fetched soup) (username : string)
         (results : list entry),
    test_all_methods json_loads get_json get_page username = Ok results ->
    exists r1 r2,
      get_user_data_json_endpoint get_json username = Ok r1
      /\ get_user_data_requests json_loads get_page username = r2
      /\ results = [entry_of "JSON Endpoints" username r1;
                    entry_of "HTML Scraping" username r2]
      /\ Forall (fun x =>
           r_username x = username
           /\ (r_success x = true ->
                 strategy_tag (r_method x)
                 /\ exists data, r_data x = Some data /\ is_dict data = true)
           /\ (r_success x = false ->
                 In (r_method x) ["JSON Endpoints"; "HTML Scraping"]
                 /\ r_data x = None)) results.
Proof.
  intros json_loads get_json get_page username results H.
  rewrite test_all_methods_unfold in H.
  pose proof (endpoint_loop_cases get_json (endpoints username)) as Hj.
  fold (get_user_data_json_endpoint get_json username) in Hj.
  destruct (get_user_data_json_endpoint get_json username) as [r1 | x]; [| discriminate H].
  cbn [bind] in H.
  destruct (reportable r1) eqn:Hrep1; [| discriminate H]. cbv zeta in H.
  pose proof (html_success json_loads get_page username) as Hh.
  destruct (get_user_data_requests json_loads get_page username) as [m2 d2 | err2] eqn:Hr2;
    cbn [reportable] in H.
  - destruct (is_dict d2) eqn:Hd2; [| discriminate H]. injection H as <-.
    exists r1, (Success m2 d2). repeat split; try reflexivity.
    constructor; [| constructor; [| constructor]].
    + destruct r1 as [m1 d1 | err1]; cbn [entry_of r_username r_success r_method r_data].
      * split; [reflexivity |]. split; [| discriminate].
        intros _. destruct Hj as [endpoint [_ [_ [_ [_ [-> _]]]]]].
        split; [right; eauto | exists d1; split; [reflexivity | exact Hrep1]].
      * split; [reflexivity |]. split; [discriminate |].
        intros _. split; [left; reflexivity | reflexivity].
    + cbn [entry_of r_username r_success r_method r_data].
      split; [reflexivity |]. split; [| discriminate].
      intros _. destruct (Hh _ _ eq_refl) as [Htag _].
      split; [left; exact Htag | exists d2; split; [reflexivity | exact Hd2]].
  - injection H as <-.
    exists r1, (Failure err2). repeat split; try reflexivity.
    constructor; [| constructor; [| constructor]].
    + destruct r1 as [m1 d1 | err1]; cbn [entry_of r_username r_success r_method r_data].
      * split; [reflexivity |]. split; [| discriminate].
        intros _. destruct Hj as [endpoint [_ [_ [_ [_ [-> _]]]]]].
        split; [right; eauto | exists d1; split; [reflexivity | exact Hrep1]].
      * split; [reflexivity |]. split; [discriminate |].
        intros _. split; [left; reflexivity | reflexivity].
    + cbn [entry_of r_username r_success r_method r_data].
      split; [reflexivity |]. split; [discriminate |].
      intros _. split; [right; left; reflexivity | reflexivity].
Qed.

(** *** The command line *)

(** The harness gives two entries, both for the user it was given. *)
Lemma test_all_methods_usernames :
  forall json_loads get_json get_page username results,
    test_all_methods json_loads get_json get_page username = Ok results ->
    map r_username results = [username; username].
Proof.
  intros json_loads get_json get_page username results H.
  rewrite test_all_methods_unfold in H.
  destruct (get_user_data_json_endpoint get_json username) as [r1 | x]; [| discriminate H].
  cbn [bind] in H. destruct (reportable r1); [| discriminate H]. cbv zeta in H.
  destruct (reportable (get_user_data_requests json_loads get_page username));
    [| discriminate H].
  injection H as <-.
  destruct r1; destruct (get_user_data_requests json_loads get_page username); reflexivity.
Qed.

Lemma run_users_usernames :
  forall json_loads get_json get_page users all_results final,
    run_users json_loads get_json get_page users all_results = Ok final ->
    map r_username final =
      (map r_username all_results ++ flat_map (fun u => [u; u]) users)%list.
Proof.
  intros json_loads get_json get_page.
  induction users as [| u users IH]; intros all_results final H.
  - cbn in H. injection H as <-. cbn [flat_map]. rewrite app_nil_r. reflexivity.
  - cbn [run_users] in H.
    destruct (test_all_methods json_loads get_json get_page u) as [results | e] eqn:Ht;
      [| discriminate H].
    cbn [bind] in H. rewrite (IH _ _ H).
    rewrite map_app, (test_all_methods_usernames _ _ _ _ _ Ht).
    cbn [flat_map]. rewrite <- app_assoc. reflexivity.
Qed.

(** X13: when [main] completes, its summary has two lines per user
    tested, in the order of the users; the dump is printed exactly when
    [--json] stands somewhere on the command line; and [--json] given as an
    argument is itself tested as a user name. *)
Theorem main_summary :
  forall (json_loads : string -> result value)
         (get_json : string -> fetched (option value))
         (get_page : string -> fetched soup) (argv : list string)
         (summary : list (string * string * bool)) (dump : option (list entry)),
    main json_loads get_json get_page argv = Ok (summary, dump) ->
    map (fun line => fst (fst line)) summary
      = flat_map (fun u => [u; u]) (test_users argv)
    /\ (In "--json" argv <-> dump <> None)
    /\ (forall script arguments,
          argv = script :: arguments -> In "--json" arguments ->
          In "--json" (map (fun line => fst (fst line)) summary)).
Proof.
  intros json_loads get_json get_page argv summary dump H. unfold main in H.
  destruct (run_users json_loads get_json get_page (test_users argv) [])
    as [all_results | e] eqn:Hrun; [| discriminate H].
  cbn [bind] in H.
  remember (existsb (String.eqb "--json") argv) as flag eqn:Hflag.
  symmetry in Hflag. injection H as <- <-.
  assert (Hnames : map (fun line : string * string * bool => fst (fst line))
                     (map (fun r => (r_username r, r_method r, r_success r)) all_results)
                   = flat_map (fun u => [u; u]) (test_users argv)).
  { rewrite map_map. cbn [fst].
    exact (run_users_usernames _ _ _ _ _ _ Hrun). }
  split; [exact Hnames |]. split.
  - destruct flag.
    + split; [intros _ Hn; discriminate Hn |]. intros _.
      apply existsb_exists in Hflag. destruct Hflag as [a [Hin Ha]].
      apply String.eqb_eq in Ha. subst a. exact Hin.
    + split; [| intro Hn; exfalso; apply Hn; reflexivity].
      intro Hin. exfalso.
      assert (existsb (String.eqb "--json") argv = true).
      { apply existsb_exists. exists "--json". split; [exact Hin | apply String.eqb_refl]. }
      congruence.
  - intros script arguments -> Hin. rewrite Hnames.
    unfold test_users. destruct arguments as [| a rest]; [destruct Hin |].
    cbn [List.length Nat.ltb Nat.leb tl].
    apply in_flat_map. exists "--json". split; [exact Hin | left; reflexivity].
Qed.

(** *** Witnesses and the sign of a count *)

(** X4: a count below zero needs a minus sign in the count string. *)
Theorem convert_count_negative_needs_minus :
  forall (s : string) (n : Z),
    _convert_count (Some s) = Ok n -> n < 0 -> no_minus s = false.
Proof.
  intros s n H Hn. destruct (no_minus s) eqn:Hs; [| reflexivity].
  pose proof (convert_count_no_minus s n Hs H). lia.
Qed.

Lemma convert_count_negative_needs_minus_witness :
  _convert_count (Some "-1.5K") = Ok (-1500) /\ no_minus "-1.5K" = false.
Proof.
  split; [vm_compute; reflexivity |].
  apply (convert_count_negative_needs_minus "-1.5K" (-1500));
    [vm_compute; reflexivity | lia].
Defined.

Lemma convert_count_raises_only_OverflowError_witness :
  _convert_count (Some "inf") = Raise OverflowError /\ OverflowError = OverflowError.
Proof.
  split; [vm_compute; reflexivity |].
  apply (convert_count_raises_only_OverflowError (Some "inf") OverflowError).
  vm_compute. reflexivity.
Defined.

Lemma meta_record_invariant_witness :
  exists title followers following posts,
    content_of (find "meta" "property" "og:title" jane_doe_page) = Some title
    /\ is_empty title = false
    /\ VDict
         [ ("username", VStr "Jane Doejanedoe");
           ("biography", VStr "1.2M Followers, 500 Following, 1,234 Posts");
           ("profile_pic", VNone);
           ("followers", VInt 1200000);
           ("following", VInt 500);
           ("posts", VInt 1234) ]
       = VDict
           [ ("username", VStr (replace ")" "" (replace " (@" "" title)));
             ("biography",
                of_option_str
                  (content_of (find "meta" "property" "og:description" jane_doe_page)));
             ("profile_pic",
                of_option_str
                  (content_of (find "meta" "property" "og:image" jane_doe_page)));
             ("followers", VInt followers);
             ("following", VInt following);
             ("posts", VInt posts) ]
    /\ 0 <= followers /\ 0 <= following /\ 0 <= posts
    /\ all_chars (fun c => negb (Ascii.eqb c ")"))
         (replace ")" "" (replace " (@" "" title)) = true.
Proof.
  apply (meta_record_invariant jane_doe_page). vm_compute. reflexivity.
Defined.


Lemma normalizing_twice_resets_counts_witness :
  exists info,
    _extract_user_info
      (VDict [("username", VStr "x"); ("edge_followed_by", VDict [("count", VInt 42)]);
              ("profile_pic_url", VStr "p"); ("is_business_account", VBool true)])
      = VDict info
    /\ lookup "followers" info = Some (VInt 42)
    /\ lookup "is_business" info = Some (VBool true)
    /\ field "followers" (Some (_extract_user_info (VDict info))) = Some (VInt 0)
    /\ field "profile_pic" (Some (_extract_user_info (VDict info))) = Some VNone
    /\ field "is_business" (Some (_extract_user_info (VDict info))) = Some (VBool false)
    /\ field "username" (Some (_extract_user_info (VDict info))) = Some (VStr "x").
Proof.
  destruct (normalizing_twice_resets_counts
              [("username", VStr "x"); ("edge_followed_by", VDict [("count", VInt 42)]);
               ("profile_pic_url", VStr "p"); ("is_business_account", VBool true)]
              eq_refl) as [info [Hinfo Htwice]].
  exists info. split; [exact Hinfo |].
  rewrite Htwice. injection Hinfo as <-. repeat split.
Defined.

Lemma test_all_methods_entries_witness :
  exists results r1 r2,
    test_all_methods rejected (always (VDict [])) jane_doe_site "janedoe" = Ok results
    /\ get_user_data_json_endpoint (always (VDict [])) "janedoe" = Ok r1
    /\ get_user_data_requests rejected jane_doe_site "janedoe" = r2
    /\ results = [entry_of "JSON Endpoints" "janedoe" r1;
                  entry_of "HTML Scraping" "janedoe" r2]
    /\ map r_method results = ["JSON Endpoints"; "MetaTags"].
Proof.
  eexists.
  assert (H : test_all_methods rejected (always (VDict [])) jane_doe_site "janedoe"
              = Ok [entry_of "JSON Endpoints" "janedoe" (Failure All_JSON_endpoints_failed);
                    entry_of "HTML Scraping" "janedoe"
                      (get_user_data_requests rejected jane_doe_site "janedoe")])
    by (vm_compute; reflexivity).
  destruct (test_all_methods_entries rejected (always (VDict [])) jane_doe_site "janedoe" _ H)
    as [r1 [r2 [H1 [H2 [H3 _]]]]].
  exists r1, r2. split; [exact H |]. split; [exact H1 |]. split; [exact H2 |].
  split; [exact H3 |]. vm_compute. reflexivity.
Defined.


Lemma test_all_methods_raises_on_raw_data_witness :
  test_all_methods rejected (always payload_null_user) jane_doe_site "janedoe"
    = Raise AttributeError.
Proof.
  apply (test_all_methods_raises_on_raw_data rejected (always payload_null_user)
           jane_doe_site "janedoe"
           ("JSON_Endpoint: " ++ base_url ++ "/janedoe/?__a=1&__d=dis") VNone);
    reflexivity.
Defined.

Lemma main_summary_witness :
  exists summary dump,
    main rejected (always (VDict [])) jane_doe_site ["scraper.py"; "janedoe"; "--json"]
      = Ok (summary, dump)
    /\ map (fun line => fst (fst line)) summary
         = ["janedoe"; "janedoe"; "--json"; "--json"]
    /\ dump <> None
    /\ In "--json" (map (fun line => fst (fst line)) summary).
Proof.
  destruct (main rejected (always (VDict [])) jane_doe_site
              ["scraper.py"; "janedoe"; "--json"]) as [[summary dump] | e] eqn:Hmain;
    [| vm_compute in Hmain; discriminate Hmain].
  destruct (main_summary rejected (always (VDict [])) jane_doe_site
              ["scraper.py"; "janedoe"; "--json"] summary dump Hmain)
    as [Hnames [Hdump Hjson]].
  exists summary, dump. split; [reflexivity |]. split; [exact Hnames |].
  split; [apply Hdump; cbn; tauto |].
  apply (Hjson "scraper.py" ["janedoe"; "--json"]); [reflexivity | cbn; tauto].
Defined.

(** X14: the record of a raw user object that is a dictionary whose count
    containers are dictionaries where present.  A key that is present
    gives its value as it is, a null included; the defaults ([None],
    [False], 0) stand for absent keys only; the picture is
    [profile_pic_url_hd] when that is present and true as a condition (an
    empty string is not), and [profile_pic_url] otherwise. *)
Theorem normalizer_record :
  forall d : list (string * value),
    unexpected_shape (VDict d) = false ->
    _extract_user_info (VDict d) =
      VDict
        [ ("id", entry_or_none "id" d);
          ("username", entry_or_none "username" d);
          ("full_name", entry_or_none "full_name" d);
          ("biography", entry_or_none "biography" d);
          ("followers", raw_count d "edge_followed_by");
          ("following", raw_count d "edge_follow");
          ("posts", raw_count d "edge_owner_to_timeline_media");
          ("profile_pic",
             if truthy (entry_or_none "profile_pic_url_hd" d)
             then entry_or_none "profile_pic_url_hd" d
             else entry_or_none "profile_pic_url" d);
          ("is_verified", entry_or_false "is_verified" d);
          ("is_business", entry_or_false "is_business_account" d);
          ("external_url", entry_or_none "external_url" d);
          ("is_private", entry_or_false "is_private" d) ].
Proof.
  intros d H.
  unfold unexpected_shape, count_containers in H. cbn [existsb] in H.
  destruct (container_ok d "edge_followed_by") eqn:H1; [| discriminate H].
  destruct (container_ok d "edge_follow") eqn:H2; [| discriminate H].
  destruct (container_ok d "edge_owner_to_timeline_media") eqn:H3; [| discriminate H].
  unfold _extract_user_info. rewrite user_info_body_dict.
  rewrite (nested_count_ok _ _ H1), (nested_count_ok _ _ H2), (nested_count_ok _ _ H3).
  reflexivity.
Qed.

Lemma normalizer_record_witness :
  field "profile_pic"
    (Some (_extract_user_info
       (VDict [("profile_pic_url_hd", VStr ""); ("profile_pic_url", VStr "p");
               ("is_verified", VNone)])))
    = Some (VStr "p")
  /\ field "is_verified"
       (Some (_extract_user_info
          (VDict [("profile_pic_url_hd", VStr ""); ("profile_pic_url", VStr "p");
                  ("is_verified", VNone)])))
       = Some VNone
  /\ field "is_private"
       (Some (_extract_user_info
          (VDict [("profile_pic_url_hd", VStr ""); ("profile_pic_url", VStr "p");
                  ("is_verified", VNone)])))
       = Some (VBool false).
Proof.
  rewrite (normalizer_record
             [("profile_pic_url_hd", VStr ""); ("profile_pic_url", VStr "p");
              ("is_verified", VNone)] eq_refl).
  repeat split.
Defined.
